(** * Converge-AI: sessions, message history and scheduled tasks

    A shallow embedding of [src/database.py] (the SQLAlchemy tables and the
    session and history functions), of the dispatcher, the start-up and
    [set_reminder] of [src/scheduler/tasks.py], and of the message
    handlers of [src/slack/app.py] with the [try] / [except] frame of
    [process_message] in [src/agent/core.py].

    Tables are lists of rows in insertion (rowid) order.  A [DateTime] is an
    integer count of microseconds.  Python exceptions are values of [exn]
    when their class derives from [Exception] and of [signal] when it does
    not; a call either returns a value or raises, and threads the state it
    works on.  The functions of [database.py] are modelled on an initialised
    database whose I/O works; the dispatcher, which has to survive a
    failing store, runs in surroundings that say which store operation
    fails. *)

From Stdlib Require Import ZArith List String Ascii DecimalString Bool Lia Sorted Permutation.
Import ListNotations.
Local Open Scope Z_scope.
Local Open Scope string_scope.

(** ** Exceptions and the state-and-exception monad *)

(** An exception is identified by its class.  [exn] holds the classes
    deriving from Python's [Exception]: they are what a failing store or a
    failing Slack call raises, and what [except Exception] catches. *)
Inductive exn : Type :=
| Exception (cls : string).

Definition RuntimeError : exn := Exception "RuntimeError".
Definition IntegrityError : exn := Exception "IntegrityError".
Definition OverflowError : exn := Exception "OverflowError".

(** The classes that derive from [BaseException] only
    ([asyncio.CancelledError], [KeyboardInterrupt], [SystemExit]): an
    awaited call raises one when its task is cancelled, and
    [except Exception] does not catch it. *)
Inductive signal : Type :=
| BaseException (cls : string).


Inductive result (A : Type) : Type :=
| Ok (a : A)
| Raise (e : exn)
| Unwind (sg : signal).
Arguments Ok {A} a.
Arguments Raise {A} e.
Arguments Unwind {A} sg.

Definition M (S A : Type) : Type := S -> result A * S.

Definition ret {S A} (a : A) : M S A := fun s => (Ok a, s).

Definition raise {S A} (e : exn) : M S A := fun s => (Raise e, s).

Definition bind {S A B} (m : M S A) (k : A -> M S B) : M S B :=
  fun s =>
    match m s with
    | (Ok a, s') => k a s'
    | (Raise e, s') => (Raise e, s')
    | (Unwind sg, s') => (Unwind sg, s')
    end.

(** [try: m  except Exception as e: h e]; what does not derive from
    [Exception] passes through. *)
Definition try_except {S A} (m : M S A) (h : exn -> M S A) : M S A :=
  fun s =>
    match m s with
    | (Ok a, s') => (Ok a, s')
    | (Raise e, s') => h e s'
    | (Unwind sg, s') => (Unwind sg, s')
    end.

Declare Scope monad_scope.
Delimit Scope monad_scope with monad.
Notation "x <- m ;; k" := (bind m (fun x => k))
  (at level 61, m at next level, right associativity) : monad_scope.
Notation "m ;; k" := (bind m (fun _ => k))
  (at level 61, right associativity) : monad_scope.
Local Open Scope monad_scope.

(** ** The tables *)

Module ConversationSession.
Record t : Type := mk {
  session_id : string;            (* primary key *)
  user_id : string;
  channel_id : option string;     (* nullable *)
  thread_ts : option string;      (* nullable *)
  created_at : Z;                 (* default=datetime.utcnow *)
  updated_at : Z;                 (* default and onupdate=datetime.utcnow *)
  is_active : bool                (* default=True *)
}.

Definition set_updated_at (now : Z) (s : t) : t :=
  mk (session_id s) (user_id s) (channel_id s) (thread_ts s)
     (created_at s) now (is_active s).

Definition set_is_active (b : bool) (s : t) : t :=
  mk (session_id s) (user_id s) (channel_id s) (thread_ts s)
     (created_at s) (updated_at s) b.
End ConversationSession.

Module Message.
Record t : Type := mk {
  id : Z;                         (* autoincrement primary key *)
  session_id : string;
  role : string;
  content : string;
  timestamp : Z;                  (* default=datetime.utcnow *)
  msg_metadata : option string
}.
End Message.

Module ScheduledTask.
Record t : Type := mk {
  task_id : string;               (* primary key *)
  user_id : string;
  channel_id : string;
  task_type : string;
  message : string;
  schedule_time : option Z;
  cron_expression : option string;
  is_recurring : bool;            (* default=False *)
  is_active : bool;               (* default=True *)
  created_at : Z;
  last_run : option Z             (* nullable *)
}.

Definition set_last_run (now : Z) (k : t) : t :=
  mk (task_id k) (user_id k) (channel_id k) (task_type k) (message k)
     (schedule_time k) (cron_expression k) (is_recurring k) (is_active k)
     (created_at k) (Some now).

Definition set_is_active (b : bool) (k : t) : t :=
  mk (task_id k) (user_id k) (channel_id k) (task_type k) (message k)
     (schedule_time k) (cron_expression k) (is_recurring k) b
     (created_at k) (last_run k).
End ScheduledTask.

(** The database file: one list per [__tablename__]. *)
Record Store : Type := mkStore {
  conversation_sessions : list ConversationSession.t;
  messages : list Message.t;
  scheduled_tasks : list ScheduledTask.t
}.

Definition with_sessions (l : list ConversationSession.t) (db : Store) : Store :=
  mkStore l (messages db) (scheduled_tasks db).

Definition with_messages (l : list Message.t) (db : Store) : Store :=
  mkStore (conversation_sessions db) l (scheduled_tasks db).

Definition with_tasks (l : list ScheduledTask.t) (db : Store) : Store :=
  mkStore (conversation_sessions db) (messages db) l.

(** ** Query helpers *)

(** [query.filter(p).first()]: the first row, in table order, that
    satisfies [p]; [None] when there is none. *)
Definition first {A} (p : A -> bool) (table : list A) : option A := find p table.

(** The [UPDATE ... WHERE pk = key] a commit flushes for a changed row. *)
Definition update_where {A} (pk : A -> string) (key : string) (f : A -> A)
    (table : list A) : list A :=
  map (fun r => if String.eqb (pk r) key then f r else r) table.

(** [column == value] in a filter: a NULL column matches nothing. *)
Definition col_eq (col : option string) (value : string) : bool :=
  match col with
  | Some c => String.eqb c value
  | None => false
  end.

(** Python truthiness of an [Optional[str]]: [None] and [""] are falsy. *)
Definition truthy (o : option string) : bool :=
  match o with
  | Some s => negb (String.eqb s "")
  | None => false
  end.

(** The value a truthy optional string holds. *)
Definition str_of (o : option string) : string :=
  match o with
  | Some s => s
  | None => ""
  end.

(** ** Session functions of [database.py] *)

Section Sessions.

(** The text [str] gives the float [datetime.timestamp()] of a clock
    reading; the functions below only splice it into the session id. *)
Variable timestamp_text : Z -> string.

(** The filters [get_or_create_session] puts on its query. *)
Definition session_filter (user_id : string) (channel_id thread_ts : option string)
    (s : ConversationSession.t) : bool :=
  String.eqb (ConversationSession.user_id s) user_id
  && ConversationSession.is_active s
  && (if truthy channel_id
      then col_eq (ConversationSession.channel_id s) (str_of channel_id)
      else true)
  && (if truthy thread_ts
      then col_eq (ConversationSession.thread_ts s) (str_of thread_ts)
      else true).

Definition new_session_id (user_id : string) (now : Z) : string :=
  "session_" ++ user_id ++ "_" ++ timestamp_text now.

(** [now] is the clock reading of the call ([datetime.utcnow()]); the
    column defaults of an inserted row read the same clock.  The insert
    of a row whose primary key is already in the table is rejected by
    SQLite and the commit raises. *)
Definition get_or_create_session (now : Z) (user_id : string)
    (channel_id thread_ts : option string) : M Store string :=
  fun db =>
    match first (session_filter user_id channel_id thread_ts)
                (conversation_sessions db) with
    | Some session =>
        let key := ConversationSession.session_id session in
        (Ok key,
         with_sessions
           (update_where ConversationSession.session_id key
              (ConversationSession.set_updated_at now)
              (conversation_sessions db)) db)
    | None =>
        let session_id := new_session_id user_id now in
        let new_session :=
          ConversationSession.mk session_id user_id channel_id thread_ts
                                 now now true in
        if existsb (fun r => String.eqb (ConversationSession.session_id r) session_id)
                   (conversation_sessions db)
        then (Raise IntegrityError, db)
        else (Ok session_id,
              with_sessions (conversation_sessions db ++ [new_session]) db)
    end.

End Sessions.

(** [clear_session]: the row is looked up by primary key; when it is
    found its [is_active] is set to [False] and committed.  The flush
    writes the row only if the attribute changed, and such an UPDATE also
    refreshes [updated_at] through the column's [onupdate]. *)
Definition clear_session (now : Z) (session_id : string) : M Store unit :=
  fun db =>
    match first (fun r => String.eqb (ConversationSession.session_id r) session_id)
                (conversation_sessions db) with
    | Some session =>
        if ConversationSession.is_active session
        then (Ok tt,
              with_sessions
                (update_where ConversationSession.session_id session_id
                   (fun r => ConversationSession.set_updated_at now
                               (ConversationSession.set_is_active false r))
                   (conversation_sessions db)) db)
        else (Ok tt, db)
    | None => (Ok tt, db)
    end.

(** ** Message history *)

(** The next value of the autoincrement key: one more than the largest
    key in the table (tables whose largest key is below the largest
    rowid, where SQLite stops counting up). *)
Definition next_message_id (table : list Message.t) : Z :=
  1 + fold_right (fun m acc => Z.max (Message.id m) acc) 0 table.

(** [add_message]; [now] is the clock reading the [timestamp] default
    takes. *)
Definition add_message (now : Z) (session_id role content : string)
    (msg_metadata : option string) : M Store unit :=
  fun db =>
    let message :=
      Message.mk (next_message_id (messages db)) session_id role content
                 now msg_metadata in
    (Ok tt, with_messages (messages db ++ [message]) db).

(** [ORDER BY timestamp ASC]: rows of equal timestamp keep their table
    order. *)
Fixpoint insert_by_timestamp (m : Message.t) (sorted : list Message.t)
    : list Message.t :=
  match sorted with
  | [] => [m]
  | m' :: rest =>
      if (Message.timestamp m <=? Message.timestamp m')%Z
      then m :: sorted
      else m' :: insert_by_timestamp m rest
  end.

Definition order_by_timestamp (rows : list Message.t) : list Message.t :=
  fold_right insert_by_timestamp [] rows.

(** [LIMIT n] as SQLite evaluates it: a negative [n] puts no upper bound
    on the number of rows. *)
Definition sql_limit {A} (n : Z) (rows : list A) : list A :=
  if (n <? 0)%Z then rows else firstn (Z.to_nat n) rows.

(** One dict of the list [get_session_history] returns.  The timestamp is
    kept as the clock value that [isoformat()] prints. *)
Record history_entry : Type := mkEntry {
  entry_role : string;
  entry_content : string;
  entry_timestamp : Z
}.

Definition entry_of (msg : Message.t) : history_entry :=
  mkEntry (Message.role msg) (Message.content msg) (Message.timestamp msg).

(** The rows the query of [get_session_history] selects. *)
Definition history_rows (session_id : string) (limit : Z) (db : Store)
    : list Message.t :=
  sql_limit limit
    (order_by_timestamp
       (filter (fun m => String.eqb (Message.session_id m) session_id)
               (messages db))).

(** The limit is bound as a parameter of the statement: a Python int
    outside the signed 64-bit range cannot be converted and the driver
    raises [OverflowError]. *)
Definition int64 (n : Z) : bool := ((- 2 ^ 63 <=? n) && (n <? 2 ^ 63))%Z.

Definition get_session_history (session_id : string) (limit : Z)
    : M Store (list history_entry) :=
  fun db =>
    if int64 limit
    then (Ok (map entry_of (history_rows session_id limit db)), db)
    else (Raise OverflowError, db).

(** The whole log of a session, oldest first. *)
Definition session_log (session_id : string) (db : Store) : list Message.t :=
  order_by_timestamp
    (filter (fun m => String.eqb (Message.session_id m) session_id)
            (messages db)).

(** ** The dispatcher of [scheduler/tasks.py] *)

Inductive log_record : Type :=
| LogWarning (msg : string)
| LogInfo (msg : string)
| LogError (msg : string) (e : exn).

(** What one awaited call of the Slack client does: it answers, with the
    [ok] flag of the response, it raises an exception, or the await is
    left by a [signal] (the task was cancelled). *)
Inductive post_outcome : Type :=
| Responded (ok : bool)
| Failed (e : exn)
| Interrupted (sg : signal).

(** The state a firing works on: the database, the calls made to
    [chat_postMessage] (channel and text, in order) and the log. *)
Record world : Type := mkWorld {
  store : Store;
  posted : list (string * string);
  log : list log_record
}.

(** The surroundings of one firing: the clock, the module-level
    [slack_client] ([None] until [set_slack_client] is called) and the
    faults of the store, one per operation the firing performs on it. *)
Record firing : Type := mkFiring {
  utcnow : Z;
  slack_client : option (string -> string -> post_outcome);
  open_fault : option exn;      (* get_db_session() raises *)
  query_fault : option exn;     (* the SELECT raises *)
  commit_fault : option exn;    (* db.commit() raises *)
  close_fault : option exn      (* leaving the with block raises *)
}.

Definition fault {S} (f : option exn) : M S unit :=
  match f with
  | Some e => raise e
  | None => ret tt
  end.

Definition logger (r : log_record) : M world unit :=
  fun w => (Ok tt, mkWorld (store w) (posted w) (log w ++ [r])).

(** [with get_db_session() as db: body].  Leaving the block closes the
    session on every path, which drops what was not committed; the
    database only changes in [commit]. *)
Definition with_db_session {A} (env : firing) (body : M world A) : M world A :=
  fault (open_fault env) ;;
  fun w =>
    match body w with
    | (r, w') =>
        match close_fault env with
        | Some e => (Raise e, w')
        | None => (r, w')
        end
    end.

Definition query_task (env : firing) (task_id : string)
    : M world (option ScheduledTask.t) :=
  fault (query_fault env) ;;
  fun w =>
    (Ok (first (fun k => String.eqb (ScheduledTask.task_id k) task_id)
               (scheduled_tasks (store w))), w).

Definition chat_postMessage (client : string -> string -> post_outcome)
    (channel text : string) : M world bool :=
  fun w =>
    let w' := mkWorld (store w) (posted w ++ [(channel, text)]) (log w) in
    match client channel text with
    | Responded ok => (Ok ok, w')
    | Failed e => (Raise e, w')
    | Interrupted sg => (Unwind sg, w')
    end.

(** [db.commit()] with [task] changed in memory: its [last_run] and
    [is_active] are written to the row of its primary key. *)
Definition commit_task (env : firing) (task : ScheduledTask.t) : M world unit :=
  fault (commit_fault env) ;;
  fun w =>
    (Ok tt,
     mkWorld
       (with_tasks
          (update_where ScheduledTask.task_id (ScheduledTask.task_id task)
             (fun r => ScheduledTask.set_is_active (ScheduledTask.is_active task)
                         (ScheduledTask.set_last_run (utcnow env) r))
             (scheduled_tasks (store w)))
          (store w))
       (posted w) (log w)).

Definition reminder_text (task : ScheduledTask.t) : string :=
  "⏰ Reminder: " ++ ScheduledTask.message task.

(** [text[:n]] on the UTF-8 bytes of a text: the first [n] characters,
    each with its continuation bytes. *)
Definition continuation_byte (c : ascii) : bool :=
  (Nat.leb 128 (nat_of_ascii c) && Nat.ltb (nat_of_ascii c) 192)%bool.

Fixpoint take_chars (n : nat) (s : string) : string :=
  match s with
  | EmptyString => EmptyString
  | String c rest =>
      if continuation_byte c then String c (take_chars n rest)
      else match n with
           | O => EmptyString
           | S n' => String c (take_chars n' rest)
           end
  end.

(** The body of the [try] block. *)
Definition execute_body (env : firing) (task_id : string) : M world unit :=
  with_db_session env (
    found <- query_task env task_id ;;
    match found with
    | None => logger (LogWarning ("Task " ++ task_id ++ " not found or inactive"))
    | Some task =>
        if negb (ScheduledTask.is_active task)
        then logger (LogWarning ("Task " ++ task_id ++ " not found or inactive"))
        else
          match slack_client env with
          | Some client =>
              chat_postMessage client (ScheduledTask.channel_id task)
                               (reminder_text task) ;;
              logger (LogInfo ("Executed task " ++ task_id ++ ": "
                               ++ take_chars 50 (ScheduledTask.message task)
                               ++ "..."))
          | None => ret tt
          end ;;
          let task := ScheduledTask.set_last_run (utcnow env) task in
          let task := if negb (ScheduledTask.is_recurring task)
                      then ScheduledTask.set_is_active false task
                      else task in
          commit_task env task
    end).

Definition execute_scheduled_task (env : firing) (task_id : string) : M world unit :=
  try_except (execute_body env task_id)
    (fun e => logger (LogError ("Error executing task " ++ task_id) e)).

(** The stored row of a task. *)
Definition task_row (task_id : string) (w : world) : option ScheduledTask.t :=
  first (fun k => String.eqb (ScheduledTask.task_id k) task_id)
        (scheduled_tasks (store w)).

(** A firing whose store operations all succeed. *)
Definition store_sound (env : firing) : Prop :=
  open_fault env = None /\ query_fault env = None /\
  commit_fault env = None /\ close_fault env = None.

(** ** Notions the statements use, and sample data *)

(** The delivery callback answers (whatever its [ok] flag), or no client
    is set and nothing is called. *)
Definition delivery_returns (env : firing) (task : ScheduledTask.t) : Prop :=
  match slack_client env with
  | Some client =>
      exists ok, client (ScheduledTask.channel_id task) (reminder_text task)
                 = Responded ok
  | None => True
  end.

(** The delivery callback raises [e]. *)
Definition delivery_raises (env : firing) (task : ScheduledTask.t) (e : exn) : Prop :=
  exists client,
    slack_client env = Some client /\
    client (ScheduledTask.channel_id task) (reminder_text task) = Failed e.

(** The delivery callback is left by the signal [sg]. *)
Definition delivery_interrupted (env : firing) (task : ScheduledTask.t)
    (sg : signal) : Prop :=
  exists client,
    slack_client env = Some client /\
    client (ScheduledTask.channel_id task) (reminder_text task) = Interrupted sg.


(** The row a completed firing at [now] leaves for [task]. *)
Definition fired (now : Z) (task : ScheduledTask.t) : ScheduledTask.t :=
  ScheduledTask.set_is_active
    (ScheduledTask.is_recurring task && ScheduledTask.is_active task)
    (ScheduledTask.set_last_run now task).

(** Unfolds one firing down to the case analysis on its surroundings. *)
Ltac run_firing :=
  unfold execute_scheduled_task, execute_body, with_db_session, query_task,
    commit_task, chat_postMessage, logger, fault, try_except, bind, ret, raise,
    task_row in *;
  simpl in *.

(** The successive firings the scheduler makes of one job, one
    surrounding per firing.  Each firing is a run of its own: it starts
    from the world the previous one left, however that one ended. *)
Fixpoint fire_each (envs : list firing) (task_id : string) (w : world) : world :=
  match envs with
  | [] => w
  | env :: rest =>
      fire_each rest task_id (snd (execute_scheduled_task env task_id w))
  end.

(** The execution of [task] at the clock of [env] is on record in [w']. *)
Definition records_execution (env : firing) (task_id : string)
    (task : ScheduledTask.t) (w' : world) : Prop :=
  exists task',
    task_row task_id w' = Some task'
    /\ ScheduledTask.last_run task' = Some (utcnow env)
    /\ (ScheduledTask.is_recurring task = false ->
        ScheduledTask.is_active task' = false).

(** Sample data: a one-time reminder and a cron job, a client that
    answers and one that raises. *)
Definition reminder_T1 : ScheduledTask.t :=
  ScheduledTask.mk "T1" "U1" "C1" "reminder" "ping" (Some 5) None
                   false true 0 None.

Definition cron_T2 : ScheduledTask.t :=
  ScheduledTask.mk "T2" "U1" "C1" "reminder" "standup" None (Some "* * * * *")
                   true true 0 None.

Definition two_tasks : world :=
  mkWorld (mkStore [] [] [reminder_T1; cron_T2]) [] [].

Definition client_up (now : Z) : firing :=
  mkFiring now (Some (fun _ _ => Responded true)) None None None None.

Definition client_down (now : Z) : firing :=
  mkFiring now (Some (fun _ _ => Failed (Exception "SlackApiError")))
           None None None None.


Definition commit_down (now : Z) : firing :=
  mkFiring now (Some (fun _ _ => Responded true)) None None
           (Some (Exception "OperationalError")) None.

(** The primary key of [conversation_sessions] is unique. *)
Definition wf_sessions (db : Store) : Prop :=
  NoDup (map ConversationSession.session_id (conversation_sessions db)).

(** The primary keys in use. *)
Definition session_keys (db : Store) : list string :=
  map ConversationSession.session_id (conversation_sessions db).

(** Sample data: a database with no rows. *)
Definition empty_store : Store := mkStore [] [] [].

(** [s] without its trailing zeros. *)
Fixpoint rstrip_zeros (s : string) : string :=
  match s with
  | EmptyString => EmptyString
  | String c rest =>
      match rstrip_zeros rest with
      | EmptyString => if Ascii.eqb c "0" then EmptyString else String c EmptyString
      | kept => String c kept
      end
  end.

Fixpoint zeros (n : nat) : string :=
  match n with
  | O => EmptyString
  | S n' => String "0" (zeros n')
  end.

Definition zero_pad (width : nat) (s : string) : string :=
  zeros (width - String.length s) ++ s.

Definition decimal (n : Z) : string := NilZero.string_of_int (Z.to_int n).

(** The text Python prints for the POSIX timestamp of a clock reading of
    [t] microseconds (readings of this century): the seconds, a point and
    the fraction without its trailing zeros.  It is the [timestamp_text]
    the examples run with. *)
Definition posix_text (t : Z) : string :=
  decimal (t / 1000000) ++ "." ++
  match rstrip_zeros (zero_pad 6 (decimal (t mod 1000000))) with
  | EmptyString => "0"
  | fraction => fraction
  end.

(** One session row differs from another only by a cleared [is_active]
    and the [updated_at] the update refreshed. *)
Definition cleared_from (now : Z) (r r' : ConversationSession.t) : Prop :=
  ConversationSession.session_id r' = ConversationSession.session_id r
  /\ ConversationSession.user_id r' = ConversationSession.user_id r
  /\ ConversationSession.channel_id r' = ConversationSession.channel_id r
  /\ ConversationSession.thread_ts r' = ConversationSession.thread_ts r
  /\ ConversationSession.created_at r' = ConversationSession.created_at r
  /\ ConversationSession.updated_at r' = now
  /\ ConversationSession.is_active r' = false.

(** Sample data: a thread session of user U1 in channel C1. *)
Definition thread_session : ConversationSession.t :=
  ConversationSession.mk "session_U1_1700000000.5" "U1" (Some "C1")
    (Some "1699999999.000100") 1700000000500000 1700000000500000 true.

(** The order of [ORDER BY timestamp ASC], on rows and on the entries
    returned. *)
Definition by_timestamp (a b : Message.t) : Prop :=
  Message.timestamp a <= Message.timestamp b.

Definition entries_ascending (entries : list history_entry) : Prop :=
  StronglySorted (fun a b => entry_timestamp a <= entry_timestamp b) entries.

(** The tail window of a log: its last [n] elements. *)
Definition most_recent {A} (n : nat) (log : list A) : list A :=
  skipn (List.length log - n) log.

(** Sample data: three messages of session S1, added at 10, 20 and 30. *)
Definition three_messages : Store :=
  mkStore []
    [Message.mk 1 "S1" "user" "one" 10 None;
     Message.mk 2 "S1" "assistant" "two" 20 None;
     Message.mk 3 "S1" "user" "three" 30 None]
    [].

(** ** Start-up and the reminder tool of [scheduler/tasks.py] *)

(** An APScheduler trigger: [CronTrigger.from_crontab(crontab)] or
    [DateTrigger(run_date=...)]. *)
Inductive trigger : Type :=
| CronTrigger (crontab : string)
| DateTrigger (run_date : Z).

(** A job of the scheduler.  Its function is always
    [execute_scheduled_task]; [job_args] is the task id it is called
    with. *)
Record job : Type := mkJob {
  job_id : string;
  job_trigger : trigger;
  job_args : string
}.

Record AsyncIOScheduler : Type := mkScheduler {
  jobs : list job;
  running : bool
}.

(** The state of the module: the world of the dispatcher and the global
    [scheduler] ([None] until [initialize_scheduler] sets it). *)
Record tasks_module : Type := mkModule {
  module_world : world;
  scheduler : option AsyncIOScheduler
}.

(** The faults of the store during one call, one per operation. *)
Record store_faults : Type := mkFaults {
  on_open : option exn;         (* get_db_session() raises *)
  on_query : option exn;        (* the SELECT raises *)
  on_commit : option exn;       (* db.commit() raises *)
  on_close : option exn         (* leaving the with block raises *)
}.

Definition no_faults : store_faults := mkFaults None None None None.

Definition ValueError : exn := Exception "ValueError".
Definition AttributeError : exn := Exception "AttributeError".

Definition module_log (r : log_record) : M tasks_module unit :=
  fun m =>
    (Ok tt,
     mkModule (mkWorld (store (module_world m)) (posted (module_world m))
                       (log (module_world m) ++ [r]))
              (scheduler m)).

(** [with get_db_session() as db: body], for code that runs on the module
    state. *)
Definition with_session {A} (faults : store_faults) (body : M tasks_module A)
    : M tasks_module A :=
  fault (on_open faults) ;;
  fun m =>
    match body m with
    | (r, m') =>
        match on_close faults with
        | Some e => (Raise e, m')
        | None => (r, m')
        end
    end.

(** [add_job(..., id=..., replace_existing=True)] on a job table: a job
    of the same id is replaced, otherwise the job is added.  The table
    is read by job id; the place of a job in the list is the order of the
    calls and says nothing of the order the scheduler keeps its jobs
    in. *)
Definition add_job (j : job) (table : list job) : list job :=
  if existsb (fun j' => String.eqb (job_id j') (job_id j)) table
  then map (fun j' => if String.eqb (job_id j') (job_id j) then j else j') table
  else (table ++ [j])%list.

(** [scheduler.add_job(...)] on the global; calling it on [None] is an
    [AttributeError]. *)
Definition scheduler_add_job (j : job) : M tasks_module unit :=
  fun m =>
    match scheduler m with
    | Some s =>
        (Ok tt, mkModule (module_world m)
                         (Some (mkScheduler (add_job j (jobs s)) (running s))))
    | None => (Raise AttributeError, m)
    end.

Definition lookup_job (task_id : string) (table : list job) : option job :=
  first (fun j => String.eqb (job_id j) task_id) table.

(** [str.lower()] on the bytes of a text: ASCII capitals become small
    letters, every other byte is kept.  The module only searches the
    lowered text for ASCII words, and no character outside ASCII lowers
    to a letter of those words next to another, so the searches give
    what they give on Python's lowered text. *)
Definition ascii_lower (c : ascii) : ascii :=
  let n := nat_of_ascii c in
  if (Nat.leb 65 n && Nat.leb n 90)%bool then ascii_of_nat (n + 32) else c.

Fixpoint lower (s : string) : string :=
  match s with
  | EmptyString => EmptyString
  | String c rest => String (ascii_lower c) (lower rest)
  end.

(** [needle in hay] *)
Fixpoint contains (needle hay : string) : bool :=
  (String.prefix needle hay
   || match hay with
      | EmptyString => false
      | String _ rest => contains needle rest
      end)%bool.

(** [timedelta(days=1)] in microseconds. *)
Definition one_day : Z := 86400000000.

Section Scheduler.

(** Library functions the module calls and whose code is not part of the
    repository: whether [CronTrigger.from_crontab] accepts an expression
    (it raises [ValueError] otherwise), the texts of a float timestamp,
    of [strftime('%Y-%m-%d %H:%M')], of [str(datetime)] and of
    [str(exception)]. *)
Variable crontab_ok : string -> bool.
Variable timestamp_text : Z -> string.
Variable strftime_minutes : Z -> string.
Variable datetime_str : Z -> string.
Variable exn_str : exn -> string.

Definition from_crontab (expr : string) : M tasks_module trigger :=
  if crontab_ok expr then ret (CronTrigger expr) else raise ValueError.

(** The body of the [for task in active_tasks] loop. *)
Definition schedule_task (task : ScheduledTask.t) : M tasks_module unit :=
  if (ScheduledTask.is_recurring task
      && truthy (ScheduledTask.cron_expression task))%bool
  then
    trigger <- from_crontab (str_of (ScheduledTask.cron_expression task)) ;;
    scheduler_add_job (mkJob (ScheduledTask.task_id task) trigger
                             (ScheduledTask.task_id task))
  else
    match ScheduledTask.schedule_time task with
    | Some run_date =>
        scheduler_add_job (mkJob (ScheduledTask.task_id task)
                                 (DateTrigger run_date)
                                 (ScheduledTask.task_id task))
    | None =>
        module_log (LogWarning ("Task " ++ ScheduledTask.task_id task
                                ++ " has no valid schedule"))
    end.

Fixpoint load_tasks (active_tasks : list ScheduledTask.t) : M tasks_module unit :=
  match active_tasks with
  | [] => ret tt
  | task :: rest => schedule_task task ;; load_tasks rest
  end.

(** The [SELECT ... WHERE is_active = 1] of the start-up. *)
Definition query_active_tasks (faults : store_faults)
    : M tasks_module (list ScheduledTask.t) :=
  fault (on_query faults) ;;
  fun m =>
    (Ok (filter ScheduledTask.is_active (scheduled_tasks (store (module_world m)))),
     m).

(** [scheduler.start()]; [start_fault] is the exception it raises, if
    any. *)
Definition scheduler_start (start_fault : option exn) : M tasks_module unit :=
  fault start_fault ;;
  fun m =>
    match scheduler m with
    | Some s => (Ok tt, mkModule (module_world m)
                                 (Some (mkScheduler (jobs s) true)))
    | None => (Raise AttributeError, m)
    end.

Definition initialize_scheduler (faults : store_faults) (start_fault : option exn)
    : M tasks_module AsyncIOScheduler :=
  module_log (LogInfo "Initializing task scheduler...") ;;
  (fun m => (Ok tt, mkModule (module_world m) (Some (mkScheduler [] false)))) ;;
  try_except
    (with_session faults (
       active_tasks <- query_active_tasks faults ;;
       load_tasks active_tasks ;;
       module_log (LogInfo ("Loaded "
                            ++ decimal (Z.of_nat (List.length active_tasks))
                            ++ " scheduled tasks"))))
    (fun e => module_log (LogError "Error loading tasks" e)) ;;
  scheduler_start start_fault ;;
  module_log (LogInfo "✅ Task scheduler initialized") ;;
  fun m =>
    match scheduler m with
    | Some s => (Ok s, m)
    | None => (Raise AttributeError, m)
    end.

(** [db.add(task); db.commit()]: the insert of a row whose primary key is
    already in the table is rejected. *)
Definition insert_task (faults : store_faults) (task : ScheduledTask.t)
    : M tasks_module unit :=
  fault (on_commit faults) ;;
  fun m =>
    let db := store (module_world m) in
    if existsb (fun k => String.eqb (ScheduledTask.task_id k)
                                    (ScheduledTask.task_id task))
               (scheduled_tasks db)
    then (Raise IntegrityError, m)
    else (Ok tt,
          mkModule (mkWorld (with_tasks (scheduled_tasks db ++ [task]) db)
                            (posted (module_world m)) (log (module_world m)))
                   (scheduler m)).

Definition could_not_parse : string :=
  "⚠️ Could not parse time. Please use format like 'tomorrow at 10am' or 'in 2 hours'".

(** [set_reminder].  [now] and [now_id] are the two readings of
    [datetime.now()], for the schedule time and for the task id, and
    [created] is the reading the [created_at] default takes. *)
Definition set_reminder (faults : store_faults) (now now_id created : Z)
    (user_id channel_id message when : string) : M tasks_module string :=
  try_except
    (let schedule_time :=
       if contains "tomorrow" (lower when) then Some (now + one_day)
       else if contains "in" (lower when) then None
       else None in
     match schedule_time with
     | None => ret could_not_parse
     | Some schedule_time =>
         let task_id :=
           "reminder_" ++ user_id ++ "_" ++ timestamp_text now_id in
         with_session faults (
           insert_task faults
             (ScheduledTask.mk task_id user_id channel_id "reminder" message
                (Some schedule_time) None false true created None)) ;;
         (fun m =>
            match scheduler m with
            | Some _ =>
                scheduler_add_job
                  (mkJob task_id (DateTrigger schedule_time) task_id) m
            | None => (Ok tt, m)
            end) ;;
         module_log (LogInfo ("Set reminder for " ++ datetime_str schedule_time
                              ++ ": " ++ message)) ;;
         ret ("✅ Reminder set for " ++ strftime_minutes schedule_time)
     end)
    (fun e =>
       module_log (LogError "Error setting reminder" e) ;;
       ret ("Error setting reminder: " ++ exn_str e)).

End Scheduler.

(** A firing seen from the module: the dispatcher works on the world and
    leaves the scheduler alone. *)
Definition module_execute (env : firing) (task_id : string)
    : M tasks_module unit :=
  fun m =>
    match execute_scheduled_task env task_id (module_world m) with
    | (r, w') => (r, mkModule w' (scheduler m))
    end.

(** The task ids in use. *)
Definition task_keys (db : Store) : list string :=
  map ScheduledTask.task_id (scheduled_tasks db).

(** The trigger the start-up gives a task, when it gives one. *)
Definition trigger_of (task : ScheduledTask.t) : option trigger :=
  if (ScheduledTask.is_recurring task
      && truthy (ScheduledTask.cron_expression task))%bool
  then Some (CronTrigger (str_of (ScheduledTask.cron_expression task)))
  else option_map DateTrigger (ScheduledTask.schedule_time task).

(** The cron expression the start-up parses for a task, if any. *)
Definition parsed_crontab (task : ScheduledTask.t) : option string :=
  if (ScheduledTask.is_recurring task
      && truthy (ScheduledTask.cron_expression task))%bool
  then Some (str_of (ScheduledTask.cron_expression task))
  else None.

(** Sample data: a crontab check that wants five fields separated by
    single spaces, a module with no scheduler yet, and renderings used in
    the examples. *)
Fixpoint count_spaces (s : string) : nat :=
  match s with
  | EmptyString => O
  | String c rest => ((if Ascii.eqb c " " then 1 else 0) + count_spaces rest)%nat
  end.

Definition five_fields (expr : string) : bool := Nat.eqb (count_spaces expr) 4.

Definition fresh_module (w : world) : tasks_module := mkModule w None.

Definition exn_class (e : exn) : string :=
  match e with Exception cls => cls end.

(** The job the start-up makes for a task: none when the task has no
    schedule the loop accepts. *)
Definition jobs_of (task : ScheduledTask.t) : list job :=
  match trigger_of task with
  | Some t => [mkJob (ScheduledTask.task_id task) t (ScheduledTask.task_id task)]
  | None => []
  end.

(** Every cron expression the start-up would parse in [tasks] is
    accepted. *)
Definition crontabs_ok (crontab_ok : string -> bool)
    (tasks : list ScheduledTask.t) : Prop :=
  forall task expr,
    In task tasks -> parsed_crontab task = Some expr -> crontab_ok expr = true.

(** A job that stands for an active task of the database. *)
Definition job_of_active_task (db : Store) (j : job) : Prop :=
  exists task,
    In task (scheduled_tasks db)
    /\ ScheduledTask.is_active task = true
    /\ job_id j = ScheduledTask.task_id task
    /\ job_args j = ScheduledTask.task_id task
    /\ trigger_of task = Some (job_trigger j).

(** Sample data: a cron job whose expression has four fields, stored
    between the two sample tasks. *)
Definition cron_bad : ScheduledTask.t :=
  ScheduledTask.mk "T3" "U1" "C1" "message" "weekly" None (Some "0 9 * *")
                   true true 0 None.

Definition three_tasks : world :=
  mkWorld (mkStore [] [] [reminder_T1; cron_bad; cron_T2]) [] [].

(** The row and the job [set_reminder] makes. *)
Definition reminder_id (timestamp_text : Z -> string) (user_id : string)
    (now_id : Z) : string :=
  "reminder_" ++ user_id ++ "_" ++ timestamp_text now_id.

Definition reminder_row (task_id user_id channel_id message : string)
    (now created : Z) : ScheduledTask.t :=
  ScheduledTask.mk task_id user_id channel_id "reminder" message
                   (Some (now + one_day)) None false true created None.

(** ** The message handlers of [slack/app.py] *)

(** The state the handlers work on: the database, what was said (text
    and [thread_ts]), the reaction calls (method, channel, timestamp),
    the calls made to the agent (message, session id and history handed
    over) and the log. *)
Record handler_state : Type := mkApp {
  app_store : Store;
  said : list (string * option string);
  reactions : list (string * string * string);
  agent_calls : list (string * string * list history_entry);
  app_log : list log_record
}.

(** The surroundings of one handled message: the clock readings of the
    resolve, of a clear and of the two stored messages, what the body of
    [process_message] gives ([agent_reply]), and which calls to Slack
    raise. *)
Record turn : Type := mkTurn {
  resolve_now : Z;
  clear_stamp : Z;
  user_stamp : Z;
  assistant_stamp : Z;
  agent_reply : string -> string -> string -> string -> list history_entry
                -> result string;
  reaction_fault : option exn;
  say_fault : string -> option exn
}.

(** A function of [database.py] called from a handler. *)
Definition in_store {A} (op : M Store A) : M handler_state A :=
  fun a =>
    match op (app_store a) with
    | (r, db') => (r, mkApp db' (said a) (reactions a) (agent_calls a) (app_log a))
    end.

Definition app_logger (r : log_record) : M handler_state unit :=
  fun a =>
    (Ok tt, mkApp (app_store a) (said a) (reactions a) (agent_calls a)
                  (app_log a ++ [r])).

(** [await say(text, thread_ts=thread_ts)] *)
Definition say (env : turn) (text : string) (thread_ts : option string)
    : M handler_state unit :=
  fun a =>
    let a' := mkApp (app_store a) (said a ++ [(text, thread_ts)]) (reactions a)
                    (agent_calls a) (app_log a) in
    match say_fault env text with
    | Some e => (Raise e, a')
    | None => (Ok tt, a')
    end.

(** [client.reactions_add] and [client.reactions_remove], with
    [name="eyes"]. *)
Definition react (env : turn) (method channel timestamp : string) : M handler_state unit :=
  fun a =>
    let a' := mkApp (app_store a) (said a)
                    (reactions a ++ [(method, channel, timestamp)])
                    (agent_calls a) (app_log a) in
    match reaction_fault env with
    | Some e => (Raise e, a')
    | None => (Ok tt, a')
    end.

Definition agent_error_reply : string :=
  "I apologize, but I encountered an error processing your message. Please try again or rephrase your question.".

(** [await process_message(...)] of [agent/core.py].  What the function
    does before its [except] clause (the early return when no agent is
    set, the middleware, the calls of the model and of the tools) is
    taken from the surroundings as [agent_reply]; an exception raised
    there is caught by the function, logged and answered with a fixed
    text.  Of its log lines only that of the [except] clause is kept. *)
Definition process_message (env : turn)
    (user_message session_id user_id channel_id : string)
    (history : list history_entry) : M handler_state string :=
  try_except
    (fun a =>
       (agent_reply env user_message session_id user_id channel_id history,
        mkApp (app_store a) (said a) (reactions a)
              (agent_calls a ++ [(user_message, session_id, history)])
              (app_log a)))
    (fun e =>
       app_logger (LogError "Error processing message" e) ;;
       ret agent_error_reply).

(** [thread_ts or "latest"] *)
Definition or_latest (thread_ts : option string) : string :=
  if truthy thread_ts then str_of thread_ts else "latest".

Definition empty_reply : string :=
  "I processed your request, but I don't have anything specific to say. How else can I help?".

Definition sorry_reply : string :=
  "Sorry, I encountered an error processing your message. Please try again.".

Definition reset_reply : string :=
  "✅ Conversation history cleared! Starting fresh.".

Definition summarizing_reply : string := "📝 Summarizing this thread...".

(** [x in [a, b, c]] on strings. *)
Definition among (x : string) (words : list string) : bool :=
  existsb (String.eqb x) words.

Section Handlers.

(** Library functions and constants taken as given: the text of a float
    timestamp, [str.strip], [text.lower().strip()] and the help text
    (a literal of several lines). *)
Variable timestamp_text : Z -> string.
Variable strip : string -> string.
Variable lower_strip : string -> string.
Variable help_text : string.

Definition process_user_message (env : turn) (user_id channel_id : string)
    (thread_ts : option string) (text : string) : M handler_state unit :=
  try_except
    (session_id <- in_store (get_or_create_session timestamp_text
                               (resolve_now env) user_id (Some channel_id)
                               thread_ts) ;;
     in_store (add_message (user_stamp env) session_id "user" text None) ;;
     try_except (react env "reactions_add" channel_id (or_latest thread_ts))
                (fun _ => ret tt) ;;
     history <- in_store (get_session_history session_id 50) ;;
     app_logger (LogInfo ("Processing message for session " ++ session_id)) ;;
     response <- process_message env text session_id user_id channel_id history ;;
     try_except (react env "reactions_remove" channel_id (or_latest thread_ts))
                (fun _ => ret tt) ;;
     let response :=
       if (String.eqb response "" || String.eqb (strip response) "")%bool
       then empty_reply else response in
     say env response thread_ts ;;
     in_store (add_message (assistant_stamp env) session_id "assistant"
                           response None) ;;
     app_logger (LogInfo ("Response sent for session " ++ session_id)))
    (fun e =>
       app_logger (LogError "Error processing message" e) ;;
       say env sorry_reply thread_ts).

Definition handle_special_command (env : turn) (text user_id channel_id : string)
    (thread_ts : option string) : M handler_state bool :=
  let text_lower := lower_strip text in
  if among text_lower ["/help"; "help"; "?"]
  then say env help_text thread_ts ;; ret true
  else if among text_lower ["/reset"; "reset"; "clear"]
  then
    session_id <- in_store (get_or_create_session timestamp_text
                              (resolve_now env) user_id (Some channel_id)
                              thread_ts) ;;
    in_store (clear_session (clear_stamp env) session_id) ;;
    say env reset_reply thread_ts ;;
    ret true
  else if (among text_lower ["summarize"; "tldr"; "summary"]
           && truthy thread_ts)%bool
  then say env summarizing_reply thread_ts ;; ret false
  else ret false.

End Handlers.

(** Sample data: an agent that answers with a fixed text, and the
    surroundings of a message handled without a fault. *)
Definition calm_turn (reply : string) : turn :=
  mkTurn 1700000100000000 1700000100000050 1700000100000100 1700000105000000
         (fun _ _ _ _ _ => Ok reply) None (fun _ => None).

Definition blank_app (db : Store) : handler_state := mkApp db [] [] [] [].

(** Sample data: a session of user U1 in channel C1 that already holds
    two messages, a window of two entries being full. *)
Definition busy_store : Store :=
  mkStore
    [ConversationSession.mk "session_U1_1700000000.5" "U1" (Some "C1") None
       1700000000500000 1700000000500000 true]
    [Message.mk 1 "session_U1_1700000000.5" "user" "hello" 1700000000600000 None;
     Message.mk 2 "session_U1_1700000000.5" "assistant" "hi" 1700000001000000 None]
    [].

(** [str.strip] on the sample texts, which carry no white space at
    their ends. *)
Definition no_strip (s : string) : string := s.

(** Sample data: the session of [busy_store] with fifty stored
    messages. *)
Definition fifty_messages : Store :=
  mkStore (conversation_sessions busy_store)
    (map (fun i => Message.mk (Z.of_nat i) "session_U1_1700000000.5" "user"
                              "earlier" (1700000000600000 + Z.of_nat i) None)
         (seq 1 50))
    [].

(** * Properties *)

(** ** Lists of rows *)

Lemma first_some {A} (p : A -> bool) (table : list A) (r : A) :
  first p table = Some r -> In r table /\ p r = true.
Proof. unfold first. apply find_some. Qed.

Lemma first_update_where_same {A} (pk : A -> string) (key : string)
    (f : A -> A) (table : list A) :
  (forall r, pk (f r) = pk r) ->
  first (fun r => String.eqb (pk r) key) (update_where pk key f table)
  = option_map f (first (fun r => String.eqb (pk r) key) table).
Proof.
  intros Hpk. unfold first, update_where.
  induction table as [| r table IH]; simpl; [reflexivity |].
  destruct (String.eqb (pk r) key) eqn:E.
  - rewrite Hpk, E. reflexivity.
  - rewrite E. exact IH.
Qed.


Lemma update_where_pk {A} (pk : A -> string) (key : string) (f : A -> A)
    (table : list A) :
  (forall r, pk (f r) = pk r) ->
  map pk (update_where pk key f table) = map pk table.
Proof.
  intros Hpk. unfold update_where. rewrite map_map.
  apply map_ext. intros r. destruct (String.eqb (pk r) key); auto.
Qed.

Lemma update_where_length {A} (pk : A -> string) (key : string) (f : A -> A)
    (table : list A) :
  List.length (update_where pk key f table) = List.length table.
Proof. unfold update_where. apply length_map. Qed.

(** ** The dispatcher *)

(** How a firing can end: it returns, or the awaited call of the client
    was left by a signal, which nothing catches. *)
Lemma execute_outcome (env : firing) (task_id : string) (w : world) :
  fst (execute_scheduled_task env task_id w) = Ok tt
  \/ exists task sg,
       task_row task_id w = Some task
       /\ ScheduledTask.is_active task = true
       /\ delivery_interrupted env task sg
       /\ fst (execute_scheduled_task env task_id w) = Unwind sg.
Proof.
  unfold delivery_interrupted. run_firing.
  destruct (open_fault env); [left; reflexivity |].
  destruct (query_fault env); simpl.
  { destruct (close_fault env); left; reflexivity. }
  destruct (first _ _) as [task |]; simpl.
  2: { destruct (close_fault env); left; reflexivity. }
  destruct (ScheduledTask.is_active task) eqn:Hact; simpl.
  2: { destruct (close_fault env); left; reflexivity. }
  destruct (slack_client env) as [client |]; simpl.
  - destruct (client _ _) as [ok | e | sg] eqn:Hcall; simpl.
    + destruct (commit_fault env); simpl; destruct (close_fault env);
        left; reflexivity.
    + destruct (close_fault env); left; reflexivity.
    + destruct (close_fault env); [left; reflexivity |].
      right. exists task, sg. repeat split; auto. exists client. auto.
  - destruct (commit_fault env); simpl; destruct (close_fault env);
      left; reflexivity.
Qed.



(** A firing on an active task whose delivery returns: the world after. *)
Lemma execute_delivered (env : firing) (task_id : string) (w : world)
    (task : ScheduledTask.t) :
  store_sound env ->
  task_row task_id w = Some task ->
  ScheduledTask.is_active task = true ->
  delivery_returns env task ->
  let w' := snd (execute_scheduled_task env task_id w) in
  task_row task_id w' = Some (fired (utcnow env) task)
  /\ conversation_sessions (store w') = conversation_sessions (store w)
  /\ messages (store w') = messages (store w)
  /\ posted w' = match slack_client env with
                 | Some _ => (posted w ++ [(ScheduledTask.channel_id task,
                                            reminder_text task)])%list
                 | None => posted w
                 end.
Proof.
  intros (Ho & Hq & Hc & Hx) Hrow Hact Hret.
  assert (Hkey : ScheduledTask.task_id task = task_id).
  { apply first_some in Hrow. apply String.eqb_eq. apply Hrow. }
  unfold delivery_returns in Hret.
  run_firing. rewrite Ho, Hq, Hc, Hx. simpl. rewrite Hrow, Hact. simpl.
  assert (Hfired : forall tasks b,
    first (fun k => String.eqb (ScheduledTask.task_id k) task_id) tasks = Some task ->
    b = (ScheduledTask.is_recurring task && ScheduledTask.is_active task)%bool ->
    first (fun k => String.eqb (ScheduledTask.task_id k) task_id)
      (update_where ScheduledTask.task_id (ScheduledTask.task_id task)
         (fun r => ScheduledTask.set_is_active b
                     (ScheduledTask.set_last_run (utcnow env) r)) tasks)
    = Some (fired (utcnow env) task)).
  { intros tasks b Hf ->. rewrite Hkey.
    rewrite first_update_where_same by reflexivity.
    rewrite Hf. reflexivity. }
  destruct (slack_client env) as [client |]; simpl.
  - destruct Hret as [ok Hok]. rewrite Hok. simpl.
    repeat split; try reflexivity.
    destruct (ScheduledTask.is_recurring task) eqn:Hrec; simpl;
      (apply Hfired; [exact Hrow | rewrite ?Hrec, ?Hact; reflexivity]).
  - repeat split; try reflexivity.
    destruct (ScheduledTask.is_recurring task) eqn:Hrec; simpl;
      (apply Hfired; [exact Hrow | rewrite ?Hrec, ?Hact; reflexivity]).
Qed.

(** A firing whose delivery raises leaves the database as it was. *)
Lemma execute_delivery_raised (env : firing) (task_id : string) (w : world)
    (task : ScheduledTask.t) (e : exn) :
  store_sound env ->
  task_row task_id w = Some task ->
  ScheduledTask.is_active task = true ->
  delivery_raises env task e ->
  execute_scheduled_task env task_id w
  = (Ok tt,
     mkWorld (store w)
       (posted w ++ [(ScheduledTask.channel_id task, reminder_text task)])
       (log w ++ [LogError ("Error executing task " ++ task_id) e])).
Proof.
  intros (Ho & Hq & Hc & Hx) Hrow Hact (client & Hcl & Hfail).
  run_firing. rewrite Ho, Hq, Hx. simpl. rewrite Hrow, Hact, Hcl. simpl.
  rewrite Hfail. reflexivity.
Qed.


(** Every firing of a recurring, active task leaves it recurring and
    active, whatever the callback and the store do. *)
Lemma recurring_row_kept (env : firing) (task_id : string) (w : world)
    (task : ScheduledTask.t) :
  task_row task_id w = Some task ->
  ScheduledTask.is_recurring task = true ->
  ScheduledTask.is_active task = true ->
  exists task',
    task_row task_id (snd (execute_scheduled_task env task_id w)) = Some task'
    /\ ScheduledTask.is_recurring task' = true
    /\ ScheduledTask.is_active task' = true
    /\ ScheduledTask.channel_id task' = ScheduledTask.channel_id task
    /\ ScheduledTask.message task' = ScheduledTask.message task.
Proof.
  intros Hrow Hrec Hact.
  assert (Hkey : ScheduledTask.task_id task = task_id).
  { apply first_some in Hrow. apply String.eqb_eq. apply Hrow. }
  assert (Hkeep : exists task',
    task_row task_id w = Some task'
    /\ ScheduledTask.is_recurring task' = true
    /\ ScheduledTask.is_active task' = true
    /\ ScheduledTask.channel_id task' = ScheduledTask.channel_id task
    /\ ScheduledTask.message task' = ScheduledTask.message task).
  { exists task. auto. }
  assert (Hupd : exists task',
    first (fun k => String.eqb (ScheduledTask.task_id k) task_id)
      (update_where ScheduledTask.task_id (ScheduledTask.task_id task)
         (fun r => ScheduledTask.set_is_active true
                     (ScheduledTask.set_last_run (utcnow env) r))
         (scheduled_tasks (store w))) = Some task'
    /\ ScheduledTask.is_recurring task' = true
    /\ ScheduledTask.is_active task' = true
    /\ ScheduledTask.channel_id task' = ScheduledTask.channel_id task
    /\ ScheduledTask.message task' = ScheduledTask.message task).
  { rewrite Hkey, first_update_where_same by reflexivity.
    unfold task_row in Hrow. rewrite Hrow. simpl.
    eexists. split; [reflexivity |]. simpl. auto. }
  run_firing.
  destruct (open_fault env); [exact Hkeep |].
  destruct (query_fault env); simpl.
  { destruct (close_fault env); exact Hkeep. }
  rewrite Hrow, Hact. simpl.
  destruct (slack_client env) as [client |]; simpl.
  - destruct (client _ _); simpl.
    + destruct (commit_fault env); simpl; destruct (close_fault env);
        simpl; try exact Hkeep; rewrite Hrec; simpl; rewrite ?Hact; exact Hupd.
    + destruct (close_fault env); exact Hkeep.
    + destruct (close_fault env); exact Hkeep.
  - destruct (commit_fault env); simpl; destruct (close_fault env);
      simpl; try exact Hkeep; rewrite Hrec; simpl; rewrite ?Hact; exact Hupd.
Qed.

Lemma fired_fields (now : Z) (task : ScheduledTask.t) :
  ScheduledTask.last_run (fired now task) = Some now
  /\ ScheduledTask.is_active (fired now task)
     = (ScheduledTask.is_recurring task && ScheduledTask.is_active task)%bool
  /\ ScheduledTask.is_recurring (fired now task) = ScheduledTask.is_recurring task
  /\ ScheduledTask.channel_id (fired now task) = ScheduledTask.channel_id task
  /\ reminder_text (fired now task) = reminder_text task.
Proof. repeat split. Qed.


Lemma fire_each_keeps_recurring (envs : list firing) (task_id : string) :
  forall (w : world) (task : ScheduledTask.t),
    task_row task_id w = Some task ->
    ScheduledTask.is_recurring task = true ->
    ScheduledTask.is_active task = true ->
    exists task',
      task_row task_id (fire_each envs task_id w) = Some task'
      /\ ScheduledTask.is_recurring task' = true
      /\ ScheduledTask.is_active task' = true.
Proof.
  induction envs as [| env rest IH]; intros w task Hrow Hrec Hact.
  - simpl. exists task. auto.
  - simpl.
    destruct (recurring_row_kept env task_id w task Hrow Hrec Hact)
      as (task' & Hrow' & Hrec' & Hact' & _).
    exact (IH _ task' Hrow' Hrec' Hact').
Qed.

(** A firing whose delivery is left by a signal: nothing is caught,
    nothing logged, nothing recorded. *)
Lemma execute_delivery_interrupted (env : firing) (task_id : string) (w : world)
    (task : ScheduledTask.t) (sg : signal) :
  store_sound env ->
  task_row task_id w = Some task ->
  ScheduledTask.is_active task = true ->
  delivery_interrupted env task sg ->
  execute_scheduled_task env task_id w
  = (Unwind sg,
     mkWorld (store w)
       (posted w ++ [(ScheduledTask.channel_id task, reminder_text task)])
       (log w)).
Proof.
  intros (Ho & Hq & Hc & Hx) Hrow Hact (client & Hcl & Hcut).
  run_firing. rewrite Ho, Hq, Hx. simpl. rewrite Hrow, Hact, Hcl. simpl.
  rewrite Hcut. reflexivity.
Qed.

(** ** Claims about the dispatcher *)

(** C1 (as amended).  On a firing of an existing, active task, with a
    store that works: whenever the delivery callback returns (success or
    a reported failure, or no client is set), the execution is recorded,
    [last_run] is the firing time and a non-recurring task is made
    inactive.  When the callback raises, nothing is recorded and the
    database is left as it was: an exception deriving from [Exception]
    is caught and logged and the call returns normally; a raise that
    does not derive from it (a cancellation) is neither caught nor
    logged and reaches the caller. *)
Theorem firing_recorded_when_delivery_returns
    (env : firing) (task_id : string) (w : world) (task : ScheduledTask.t) :
  store_sound env ->
  task_row task_id w = Some task ->
  ScheduledTask.is_active task = true ->
  (delivery_returns env task ->
   records_execution env task_id task
     (snd (execute_scheduled_task env task_id w)))
  /\ (forall e, delivery_raises env task e ->
        execute_scheduled_task env task_id w
        = (Ok tt,
           mkWorld (store w)
             (posted w ++ [(ScheduledTask.channel_id task, reminder_text task)])
             (log w ++ [LogError ("Error executing task " ++ task_id) e])))
  /\ (forall sg, delivery_interrupted env task sg ->
        execute_scheduled_task env task_id w
        = (Unwind sg,
           mkWorld (store w)
             (posted w ++ [(ScheduledTask.channel_id task, reminder_text task)])
             (log w))).
Proof.
  intros Hs Hrow Hact. split; [| split].
  - intros Hret.
    destruct (execute_delivered env task_id w task Hs Hrow Hact Hret)
      as (Hrow' & _).
    exists (fired (utcnow env) task). split; [exact Hrow' |].
    split; [reflexivity |].
    intros Hrec. simpl. rewrite Hrec. reflexivity.
  - intros e Hraise.
    exact (execute_delivery_raised env task_id w task e Hs Hrow Hact Hraise).
  - intros sg Hcut.
    exact (execute_delivery_interrupted env task_id w task sg Hs Hrow Hact Hcut).
Qed.

Lemma firing_recorded_when_delivery_returns_witness :
  records_execution (client_up 10) "T1" reminder_T1
    (snd (execute_scheduled_task (client_up 10) "T1" two_tasks)).
Proof.
  apply (firing_recorded_when_delivery_returns
           (client_up 10) "T1" two_tasks reminder_T1).
  - repeat split.
  - reflexivity.
  - reflexivity.
  - simpl. exists true. reflexivity.
Defined.

(** C1 as stated fails: the callback raises at the firing of the active
    reminder T1, and the execution is not recorded. *)
Lemma firing_lost_when_delivery_raises :
  store_sound (client_down 10)
  /\ task_row "T1" two_tasks = Some reminder_T1
  /\ ScheduledTask.is_active reminder_T1 = true
  /\ ~ records_execution (client_down 10) "T1" reminder_T1
         (snd (execute_scheduled_task (client_down 10) "T1" two_tasks)).
Proof.
  split; [repeat split |]. split; [reflexivity |]. split; [reflexivity |].
  intros (task' & Hrow & Hlast & _).
  vm_compute in Hrow. injection Hrow as <-. discriminate Hlast.
Qed.

(** C6 (as amended).  A one-time task that is active when it is fired,
    with a store that works and a delivery that does not fail, is stored
    inactive afterwards, with [last_run] set to the firing time. *)
Theorem one_time_task_ends_inactive
    (env : firing) (task_id : string) (w : world) (task : ScheduledTask.t) :
  store_sound env ->
  task_row task_id w = Some task ->
  ScheduledTask.is_active task = true ->
  ScheduledTask.is_recurring task = false ->
  delivery_returns env task ->
  exists task',
    task_row task_id (snd (execute_scheduled_task env task_id w)) = Some task'
    /\ ScheduledTask.is_active task' = false
    /\ ScheduledTask.last_run task' = Some (utcnow env)
    /\ ScheduledTask.last_run task' <> None.
Proof.
  intros Hs Hrow Hact Hrec Hret.
  destruct (execute_delivered env task_id w task Hs Hrow Hact Hret)
    as (Hrow' & _).
  exists (fired (utcnow env) task). split; [exact Hrow' |].
  destruct (fired_fields (utcnow env) task) as (Hl & Ha & _).
  rewrite Hl, Ha, Hrec. repeat split; discriminate.
Qed.

Lemma one_time_task_ends_inactive_witness :
  exists task',
    task_row "T1" (snd (execute_scheduled_task (client_up 10) "T1" two_tasks))
    = Some task'
    /\ ScheduledTask.is_active task' = false
    /\ ScheduledTask.last_run task' = Some 10
    /\ ScheduledTask.last_run task' <> None.
Proof.
  apply (one_time_task_ends_inactive (client_up 10) "T1" two_tasks reminder_T1).
  - repeat split.
  - reflexivity.
  - reflexivity.
  - reflexivity.
  - simpl. exists true. reflexivity.
Defined.

(** C6 as stated fails: the one-time reminder T1 is active, its delivery
    callback answers with success, and the commit then raises; the stored
    task is still active and its [last_run] still null. *)
Lemma one_time_task_unrecorded_when_commit_fails :
  task_row "T1" two_tasks = Some reminder_T1
  /\ ScheduledTask.is_active reminder_T1 = true
  /\ ScheduledTask.is_recurring reminder_T1 = false
  /\ delivery_returns (commit_down 10) reminder_T1
  /\ posted (snd (execute_scheduled_task (commit_down 10) "T1" two_tasks))
     = [("C1", reminder_text reminder_T1)]
  /\ task_row "T1" (snd (execute_scheduled_task (commit_down 10) "T1" two_tasks))
     = Some reminder_T1
  /\ ScheduledTask.last_run reminder_T1 = None
  /\ ~ (exists task',
          task_row "T1"
            (snd (execute_scheduled_task (commit_down 10) "T1" two_tasks))
          = Some task'
          /\ ScheduledTask.is_active task' = false).
Proof.
  split; [reflexivity |]. split; [reflexivity |]. split; [reflexivity |].
  split; [simpl; exists true; reflexivity |].
  split; [reflexivity |]. split; [reflexivity |]. split; [reflexivity |].
  intros (task' & Hrow & Hoff). vm_compute in Hrow.
  injection Hrow as <-. discriminate Hoff.
Qed.

(** C7 (as amended).  A recurring task stays active through every
    firing, whatever the callback and the store do at each of them; and
    each successful firing stores the clock reading of that firing as
    [last_run], so of two successive successful firings the later one
    stores a strictly later [last_run] exactly when its clock reading is
    strictly later. *)
Theorem recurring_task_stays_active
    (task_id : string) (w : world) (task : ScheduledTask.t) :
  task_row task_id w = Some task ->
  ScheduledTask.is_recurring task = true ->
  ScheduledTask.is_active task = true ->
  (forall envs : list firing,
     exists task',
       task_row task_id (fire_each envs task_id w) = Some task'
       /\ ScheduledTask.is_active task' = true)
  /\ (forall env1 env2 : firing,
        store_sound env1 -> store_sound env2 ->
        delivery_returns env1 task -> delivery_returns env2 task ->
        exists task1 task2,
          task_row task_id (fire_each [env1] task_id w) = Some task1
          /\ task_row task_id (fire_each [env1; env2] task_id w) = Some task2
          /\ ScheduledTask.is_active task1 = true
          /\ ScheduledTask.is_active task2 = true
          /\ ScheduledTask.last_run task1 = Some (utcnow env1)
          /\ ScheduledTask.last_run task2 = Some (utcnow env2)
          /\ (forall ran1 ran2,
                ScheduledTask.last_run task1 = Some ran1 ->
                ScheduledTask.last_run task2 = Some ran2 ->
                (ran1 < ran2 <-> utcnow env1 < utcnow env2))).
Proof.
  intros Hrow Hrec Hact. split.
  - intros envs.
    destruct (fire_each_keeps_recurring envs task_id w task Hrow Hrec Hact)
      as (task' & Hrow' & _ & Hact').
    exists task'. auto.
  - intros env1 env2 Hs1 Hs2 Hret1 Hret2.
    destruct (execute_delivered env1 task_id w task Hs1 Hrow Hact Hret1)
      as (Hrow1 & _).
    destruct (fired_fields (utcnow env1) task) as (Hl1 & Ha1 & Hr1 & Hc1 & Ht1).
    assert (Ha1' : ScheduledTask.is_active (fired (utcnow env1) task) = true).
    { rewrite Ha1, Hrec, Hact. reflexivity. }
    assert (Hret2' : delivery_returns env2 (fired (utcnow env1) task)).
    { unfold delivery_returns in *. rewrite Hc1, Ht1. exact Hret2. }
    destruct (execute_delivered env2 task_id _ _ Hs2 Hrow1 Ha1' Hret2')
      as (Hrow2 & _).
    assert (Ha2 : ScheduledTask.is_active
                    (fired (utcnow env2) (fired (utcnow env1) task)) = true).
    { destruct (fired_fields (utcnow env2) (fired (utcnow env1) task))
        as (_ & Ha2 & _).
      rewrite Ha2, Hr1, Ha1', Hrec. reflexivity. }
    exists (fired (utcnow env1) task),
           (fired (utcnow env2) (fired (utcnow env1) task)).
    split; [exact Hrow1 |]. split; [exact Hrow2 |].
    split; [exact Ha1' |]. split; [exact Ha2 |].
    split; [exact Hl1 |]. split; [reflexivity |].
    intros ran1 ran2 H1 H2. rewrite Hl1 in H1. injection H1 as <-.
    cbn in H2. injection H2 as <-. reflexivity.
Qed.

Lemma recurring_task_stays_active_witness :
  exists task1 task2,
    task_row "T2" (fire_each [client_up 60] "T2" two_tasks) = Some task1
    /\ task_row "T2" (fire_each [client_up 60; client_up 120] "T2" two_tasks)
       = Some task2
    /\ ScheduledTask.is_active task1 = true
    /\ ScheduledTask.is_active task2 = true
    /\ ScheduledTask.last_run task1 = Some 60
    /\ ScheduledTask.last_run task2 = Some 120
    /\ (forall ran1 ran2,
          ScheduledTask.last_run task1 = Some ran1 ->
          ScheduledTask.last_run task2 = Some ran2 ->
          (ran1 < ran2 <-> 60 < 120)).
Proof.
  apply (recurring_task_stays_active "T2" two_tasks cron_T2).
  - reflexivity.
  - reflexivity.
  - reflexivity.
  - repeat split.
  - repeat split.
  - simpl. exists true. reflexivity.
  - simpl. exists true. reflexivity.
Defined.

(** C7 as stated fails: the cron job T2 is fired twice with success and
    the clock reads the same at both firings; [last_run] is the same
    after the second firing as after the first, it has not increased. *)
Lemma last_run_repeats_when_clock_repeats :
  task_row "T2" two_tasks = Some cron_T2
  /\ ScheduledTask.is_recurring cron_T2 = true
  /\ store_sound (client_up 60)
  /\ delivery_returns (client_up 60) cron_T2
  /\ option_map ScheduledTask.last_run
       (task_row "T2" (fire_each [client_up 60] "T2" two_tasks))
     = Some (Some 60)
  /\ option_map ScheduledTask.last_run
       (task_row "T2" (fire_each [client_up 60; client_up 60] "T2" two_tasks))
     = Some (Some 60)
  /\ ~ (exists task1 task2 ran1 ran2,
          task_row "T2" (fire_each [client_up 60] "T2" two_tasks) = Some task1
          /\ task_row "T2" (fire_each [client_up 60; client_up 60] "T2" two_tasks)
             = Some task2
          /\ ScheduledTask.last_run task1 = Some ran1
          /\ ScheduledTask.last_run task2 = Some ran2
          /\ ran1 < ran2).
Proof.
  split; [reflexivity |]. split; [reflexivity |]. split; [repeat split |].
  split; [simpl; exists true; reflexivity |].
  split; [reflexivity |]. split; [reflexivity |].
  intros (task1 & task2 & ran1 & ran2 & H1 & H2 & Hl1 & Hl2 & Hlt).
  vm_compute in H1, H2. injection H1 as <-. injection H2 as <-.
  cbn in Hl1, Hl2. injection Hl1 as <-. injection Hl2 as <-. lia.
Qed.

(** An uninitialised database: [get_db_session] raises, the dispatcher
    logs the error and returns. *)
Example execute_without_database :
  execute_scheduled_task
    (mkFiring 60 None (Some RuntimeError) None None None) "T1" two_tasks
  = (Ok tt,
     mkWorld (store two_tasks) []
       [LogError "Error executing task T1" RuntimeError]).
Proof. reflexivity. Qed.




(** ** Sessions *)

Lemma first_app_none {A} (p : A -> bool) (l l' : list A) :
  first p l = None -> first p (l ++ l') = first p l'.
Proof.
  unfold first. induction l as [| r l IH]; simpl; [reflexivity |].
  destruct (p r); [discriminate | exact IH].
Qed.

Lemma first_map_stable {A} (p : A -> bool) (g : A -> A) (l : list A) :
  (forall r, p (g r) = p r) ->
  first p (map g l) = option_map g (first p l).
Proof.
  intros Hp. unfold first. induction l as [| r l IH]; simpl; [reflexivity |].
  rewrite Hp. destruct (p r); [reflexivity | exact IH].
Qed.

Lemma existsb_key_false (key : string) (l : list ConversationSession.t) :
  existsb (fun r => String.eqb (ConversationSession.session_id r) key) l = false ->
  ~ In key (map ConversationSession.session_id l).
Proof.
  intros Hex Hin. apply in_map_iff in Hin. destruct Hin as (r & Hk & Hr).
  assert (existsb (fun r => String.eqb (ConversationSession.session_id r) key) l
          = true) as Ht.
  { apply existsb_exists. exists r. split; [exact Hr |].
    apply String.eqb_eq. exact Hk. }
  congruence.
Qed.

Lemma existsb_key_true (key : string) (l : list ConversationSession.t) :
  existsb (fun r => String.eqb (ConversationSession.session_id r) key) l = true ->
  In key (map ConversationSession.session_id l).
Proof.
  intros Hex. apply existsb_exists in Hex. destruct Hex as (r & Hr & Hk).
  apply String.eqb_eq in Hk. apply in_map_iff. exists r. auto.
Qed.

Lemma unique_row {A} (pk : A -> string) (l : list A) (r r' : A) :
  NoDup (map pk l) -> In r l -> In r' l -> pk r = pk r' -> r = r'.
Proof.
  induction l as [| x l IH]; simpl; intros Hnd Hr Hr' Hk; [contradiction |].
  inversion Hnd as [| ? ? Hnotin Hnd']; subst.
  destruct Hr as [-> | Hr], Hr' as [-> | Hr'].
  - reflexivity.
  - exfalso. apply Hnotin. rewrite Hk. apply in_map. exact Hr'.
  - exfalso. apply Hnotin. rewrite <- Hk. apply in_map. exact Hr.
  - apply IH; assumption.
Qed.

Lemma NoDup_snoc {A} (l : list A) (a : A) :
  NoDup l -> ~ In a l -> NoDup (l ++ [a]).
Proof.
  induction l as [| x l IH]; simpl; intros Hnd Hnotin.
  - constructor; [intros [] | constructor].
  - inversion Hnd as [| ? ? Hx Hnd']; subst. constructor.
    + intros Hin. apply in_app_or in Hin. destruct Hin as [Hin | [-> | []]].
      * exact (Hx Hin).
      * apply Hnotin. left. reflexivity.
    + apply IH; [exact Hnd' |]. intros Hin. apply Hnotin. right. exact Hin.
Qed.

Lemma session_filter_touch (user : string) (channel thread : option string)
    (key : string) (now : Z) (r : ConversationSession.t) :
  session_filter user channel thread
    (if String.eqb (ConversationSession.session_id r) key
     then ConversationSession.set_updated_at now r else r)
  = session_filter user channel thread r.
Proof. destruct (String.eqb _ key); reflexivity. Qed.

Lemma session_filter_new (user : string) (channel thread : option string)
    (key : string) (now : Z) :
  session_filter user channel thread
    (ConversationSession.mk key user channel thread now now true) = true.
Proof.
  unfold session_filter. simpl. rewrite String.eqb_refl. simpl.
  destruct channel as [c |], thread as [t |]; simpl;
    repeat match goal with
           | |- context [negb (String.eqb ?s "")] =>
               destruct (String.eqb s ""); simpl
           end;
    rewrite ?String.eqb_refl; reflexivity.
Qed.

(** A resolve that returns an id leaves a row with that id, keeps the
    key unique and keeps the other tables. *)
Lemma resolve_returned (timestamp_text : Z -> string) (now : Z) (user : string)
    (channel thread : option string) (db db1 : Store) (sid : string) :
  get_or_create_session timestamp_text now user channel thread db
  = (Ok sid, db1) ->
  In sid (session_keys db1)
  /\ (wf_sessions db -> wf_sessions db1)
  /\ messages db1 = messages db
  /\ scheduled_tasks db1 = scheduled_tasks db.
Proof.
  unfold get_or_create_session, session_keys, wf_sessions.
  destruct (first _ _) as [s |] eqn:Hfirst.
  - intros H. injection H as <- <-. simpl.
    rewrite update_where_pk by reflexivity.
    apply first_some in Hfirst. repeat split; auto.
    apply in_map. apply Hfirst.
  - destruct (existsb _ _) eqn:Hex; [discriminate |].
    intros H. injection H as <- <-. simpl.
    rewrite map_app. simpl. repeat split; auto.
    + apply in_or_app. right. left. reflexivity.
    + intros Hnd. apply NoDup_snoc; [exact Hnd |].
      apply existsb_key_false. exact Hex.
Qed.

Lemma clear_session_ok (now : Z) (sid : string) (db : Store) :
  fst (clear_session now sid db) = Ok tt.
Proof.
  unfold clear_session. destruct (first _ _) as [s |]; [| reflexivity].
  destruct (ConversationSession.is_active s); reflexivity.
Qed.

Lemma clear_session_keys (now : Z) (sid : string) (db : Store) :
  session_keys (snd (clear_session now sid db)) = session_keys db.
Proof.
  unfold clear_session, session_keys.
  destruct (first _ _) as [s |]; [| reflexivity].
  destruct (ConversationSession.is_active s); [| reflexivity].
  simpl. apply update_where_pk. reflexivity.
Qed.

(** After [clear_session], the row of the cleared id is inactive. *)
Lemma clear_session_inactive (now : Z) (sid : string) (db : Store)
    (r : ConversationSession.t) :
  wf_sessions db ->
  In r (conversation_sessions (snd (clear_session now sid db))) ->
  ConversationSession.session_id r = sid ->
  ConversationSession.is_active r = false.
Proof.
  unfold clear_session, wf_sessions. intros Hnd Hin Hkey.
  destruct (first _ _) as [s |] eqn:Hfirst.
  - apply first_some in Hfirst. destruct Hfirst as (Hs & Hsk).
    apply String.eqb_eq in Hsk.
    destruct (ConversationSession.is_active s) eqn:Hact; simpl in Hin.
    + unfold update_where in Hin. apply in_map_iff in Hin.
      destruct Hin as (r0 & Hr0 & _).
      destruct (String.eqb (ConversationSession.session_id r0) sid) eqn:E.
      * subst r. reflexivity.
      * subst r. apply String.eqb_neq in E. contradiction.
    + rewrite (unique_row ConversationSession.session_id _ r s Hnd Hin Hs);
        [exact Hact | congruence].
  - simpl in Hin. unfold first in Hfirst.
    pose proof (find_none _ _ Hfirst r Hin) as Hno. simpl in Hno.
    apply String.eqb_neq in Hno. contradiction.
Qed.

(** ** Claims about sessions *)

(** C5.  A resolve that returned session id S, followed by a second
    resolve with the same identity triple and no [clear_session] in
    between, returns S again: the second call finds the row and only
    refreshes its [updated_at]. *)
Theorem resolve_twice_same_session
    (timestamp_text : Z -> string) (now1 now2 : Z) (user : string)
    (channel thread : option string) (db db1 : Store) (sid : string) :
  get_or_create_session timestamp_text now1 user channel thread db
  = (Ok sid, db1) ->
  get_or_create_session timestamp_text now2 user channel thread db1
  = (Ok sid,
     with_sessions
       (update_where ConversationSession.session_id sid
          (ConversationSession.set_updated_at now2)
          (conversation_sessions db1)) db1).
Proof.
  unfold get_or_create_session.
  destruct (first _ (conversation_sessions db)) as [s |] eqn:Hfirst.
  - intros H. injection H as <- <-. simpl.
    unfold update_where at 1.
    rewrite first_map_stable by (intros r; apply session_filter_touch).
    rewrite Hfirst. simpl.
    destruct (String.eqb _ _); reflexivity.
  - destruct (existsb _ _); [discriminate |].
    intros H. injection H as <- <-. simpl.
    rewrite first_app_none by exact Hfirst.
    unfold first. simpl. rewrite session_filter_new. reflexivity.
Qed.

Example posix_text_half : posix_text 1700000000500000 = "1700000000.5".
Proof. reflexivity. Qed.

Example posix_text_micro : posix_text 1700000000000042 = "1700000000.000042".
Proof. reflexivity. Qed.

Example posix_text_whole : posix_text 1700000000000000 = "1700000000.0".
Proof. reflexivity. Qed.

Lemma resolve_twice_same_session_witness :
  get_or_create_session posix_text 1700000060000000 "U1" (Some "C1") None
    (snd (get_or_create_session posix_text 1700000000500000 "U1" (Some "C1")
            None empty_store))
  = (Ok "session_U1_1700000000.5",
     mkStore [ConversationSession.mk "session_U1_1700000000.5" "U1" (Some "C1")
                None 1700000000500000 1700000060000000 true] [] []).
Proof.
  apply (resolve_twice_same_session posix_text 1700000000500000
           1700000060000000 "U1" (Some "C1") None empty_store).
  reflexivity.
Defined.

(** C4 (as amended).  With a unique primary key: when a resolve returned
    S and S is then cleared, the next resolve with the same identity
    triple never returns S; and it does return an id, different from S,
    whenever the id it would generate from the clock is not yet a key of
    the table. *)
Theorem resolve_after_clear_differs
    (timestamp_text : Z -> string) (now0 now_clear now1 : Z) (user : string)
    (channel thread : option string) (db db1 : Store) (sid : string) :
  wf_sessions db ->
  get_or_create_session timestamp_text now0 user channel thread db
  = (Ok sid, db1) ->
  let db2 := snd (clear_session now_clear sid db1) in
  fst (get_or_create_session timestamp_text now1 user channel thread db2)
  <> Ok sid
  /\ (~ In (new_session_id timestamp_text user now1) (session_keys db2) ->
      exists sid' db3,
        get_or_create_session timestamp_text now1 user channel thread db2
        = (Ok sid', db3)
        /\ sid' <> sid).
Proof.
  intros Hwf Hres db2.
  destruct (resolve_returned timestamp_text _ _ _ _ _ _ _ Hres)
    as (Hin & Hwf1 & _).
  specialize (Hwf1 Hwf).
  assert (Hin2 : In sid (session_keys db2)).
  { subst db2. rewrite clear_session_keys. exact Hin. }
  assert (Hfound : forall s,
    first (session_filter user channel thread) (conversation_sessions db2)
    = Some s -> ConversationSession.session_id s <> sid).
  { intros s Hs Hkey. apply first_some in Hs. destruct Hs as (Hs & Hp).
    pose proof (clear_session_inactive now_clear sid db1 s Hwf1 Hs Hkey) as Hina.
    unfold session_filter in Hp. rewrite Hina in Hp.
    rewrite andb_false_r in Hp. discriminate. }
  unfold get_or_create_session.
  destruct (first _ (conversation_sessions db2)) as [s |] eqn:Hfirst.
  - specialize (Hfound s eq_refl). split.
    + simpl. congruence.
    + intros _. eexists _, _. split; [reflexivity | exact Hfound].
  - destruct (existsb _ _) eqn:Hex.
    + split; [simpl; discriminate |].
      intros Hfresh. exfalso. apply Hfresh.
      apply existsb_key_true. exact Hex.
    + apply existsb_key_false in Hex.
      assert (Hne : new_session_id timestamp_text user now1 <> sid).
      { intros Heq. apply Hex. rewrite Heq. exact Hin2. }
      split.
      * simpl. congruence.
      * intros _. eexists _, _. split; [reflexivity | exact Hne].
Qed.

Lemma resolve_after_clear_differs_witness :
  exists sid' db3,
    get_or_create_session posix_text 1700000060000000 "U1" (Some "C1") None
      (snd (clear_session 1700000030000000 "session_U1_1700000000.5"
              (snd (get_or_create_session posix_text 1700000000500000 "U1"
                      (Some "C1") None empty_store))))
    = (Ok sid', db3)
    /\ sid' <> "session_U1_1700000000.5".
Proof.
  apply (resolve_after_clear_differs posix_text 1700000000500000
           1700000030000000 1700000060000000 "U1" (Some "C1") None
           empty_store _ "session_U1_1700000000.5").
  - constructor.
  - reflexivity.
  - vm_compute. intros [H | []]. discriminate H.
Defined.

(** C4 as stated fails: S is created at a clock reading, cleared, and the
    next resolve reads the same clock value; the id it generates is S
    again, the insert is rejected and the call raises instead of
    returning a different id. *)
Lemma resolve_after_clear_collides :
  let now := 1700000000500000 in
  let sid := "session_U1_1700000000.5" in
  let db1 := snd (get_or_create_session posix_text now "U1" (Some "C1") None
                    empty_store) in
  let db2 := snd (clear_session now sid db1) in
  wf_sessions empty_store
  /\ fst (get_or_create_session posix_text now "U1" (Some "C1") None empty_store)
     = Ok sid
  /\ new_session_id posix_text "U1" now = sid
  /\ get_or_create_session posix_text now "U1" (Some "C1") None db2
     = (Raise IntegrityError, db2)
  /\ ~ (exists sid' db3,
          get_or_create_session posix_text now "U1" (Some "C1") None db2
          = (Ok sid', db3) /\ sid' <> sid).
Proof.
  cbv zeta. split; [constructor |]. split; [reflexivity |].
  split; [reflexivity |]. split; [reflexivity |].
  intros (sid' & db3 & H & _). vm_compute in H. discriminate H.
Qed.

Lemma Forall2_map_self {A} (P : A -> A -> Prop) (g : A -> A) (l : list A) :
  (forall r, P r (g r)) -> Forall2 P l (map g l).
Proof. intros H. induction l; simpl; constructor; auto. Qed.

Lemma Forall2_diag {A} (P : A -> A -> Prop) (l : list A) :
  (forall r, P r r) -> Forall2 P l l.
Proof. intros H. induction l; constructor; auto. Qed.

(** C9 (as amended).  [clear_session] returns normally; it leaves the
    messages and the tasks as they are, so every history read gives what
    it gave before; and a session row is either unchanged or it is the
    row of the cleared id, with [is_active] set to false and [updated_at]
    refreshed, and nothing else changed. *)
Theorem clear_session_frame (now : Z) (sid : string) (db : Store) :
  let db' := snd (clear_session now sid db) in
  fst (clear_session now sid db) = Ok tt
  /\ messages db' = messages db
  /\ scheduled_tasks db' = scheduled_tasks db
  /\ (forall s limit,
        fst (get_session_history s limit db')
        = fst (get_session_history s limit db))
  /\ Forall2
       (fun r r' =>
          r' = r
          \/ (ConversationSession.session_id r = sid /\ cleared_from now r r'))
       (conversation_sessions db) (conversation_sessions db').
Proof.
  intros db'. split; [apply clear_session_ok |].
  assert (Hm : messages db' = messages db).
  { subst db'. unfold clear_session. destruct (first _ _) as [s |];
      [destruct (ConversationSession.is_active s) |]; reflexivity. }
  split; [exact Hm |]. split.
  { subst db'. unfold clear_session. destruct (first _ _) as [s |];
      [destruct (ConversationSession.is_active s) |]; reflexivity. }
  split.
  { intros s limit. unfold get_session_history, history_rows.
    destruct (int64 limit); simpl; rewrite ?Hm; reflexivity. }
  subst db'. unfold clear_session.
  destruct (first _ _) as [s |].
  2: { apply Forall2_diag. auto. }
  destruct (ConversationSession.is_active s).
  2: { apply Forall2_diag. auto. }
  simpl. unfold update_where. apply Forall2_map_self.
  intros r. destruct (String.eqb (ConversationSession.session_id r) sid) eqn:E.
  - right. apply String.eqb_eq in E. split; [exact E |].
    unfold cleared_from. simpl. repeat split.
  - left. reflexivity.
Qed.

(** C9 as stated fails: clearing an active session also changes its
    [updated_at], so the row is not the old row with only [is_active]
    flipped. *)
Lemma clear_session_touches_updated_at :
  let row :=
    ConversationSession.mk "S1" "U1" (Some "C1") None 100 100 true in
  let db := mkStore [row] [] [] in
  conversation_sessions (snd (clear_session 200 "S1" db))
  = [ConversationSession.mk "S1" "U1" (Some "C1") None 100 200 false]
  /\ conversation_sessions (snd (clear_session 200 "S1" db))
     <> [ConversationSession.set_is_active false row].
Proof.
  cbv zeta. split; [reflexivity |]. vm_compute. intros H. discriminate H.
Qed.


Lemma filter_none {A} (p : A -> bool) (l : list A) :
  (forall r, In r l -> p r = false) -> filter p l = [].
Proof.
  induction l as [| r l IH]; simpl; intros H; [reflexivity |].
  rewrite (H r) by (left; reflexivity). apply IH. intros r' Hr'. apply H.
  right. exact Hr'.
Qed.

(** C3 (as amended).  An operation that names an id the store does not
    hold completes without raising a not-found error: [clear_session] on
    an unknown session id returns and changes nothing;
    [execute_scheduled_task] on an unknown task id returns, posts nothing
    and leaves the database as it was, and with a store that works it
    logs the warning that the task was not found and nothing else; a
    history read makes no check of the session id: with a limit in the
    signed 64-bit range it returns the window of the messages stored
    under the id, the empty list when there are none, and with a limit
    outside that range it raises [OverflowError], known id or not. *)
Theorem unknown_id_completes_silently :
  (forall (now : Z) (sid : string) (db : Store),
     ~ In sid (session_keys db) ->
     clear_session now sid db = (Ok tt, db))
  /\ (forall (env : firing) (task_id : string) (w : world),
        task_row task_id w = None ->
        fst (execute_scheduled_task env task_id w) = Ok tt
        /\ store (snd (execute_scheduled_task env task_id w)) = store w
        /\ posted (snd (execute_scheduled_task env task_id w)) = posted w
        /\ (store_sound env ->
            execute_scheduled_task env task_id w
            = (Ok tt,
               mkWorld (store w) (posted w)
                 (log w ++ [LogWarning ("Task " ++ task_id
                                        ++ " not found or inactive")]))))
  /\ (forall (sid : string) (limit : Z) (db : Store),
        ~ In sid (session_keys db) ->
        (int64 limit = true ->
         get_session_history sid limit db
         = (Ok (map entry_of (sql_limit limit (session_log sid db))), db)
         /\ ((forall m, In m (messages db) -> Message.session_id m <> sid) ->
             get_session_history sid limit db = (Ok [], db)))
        /\ (int64 limit = false ->
            get_session_history sid limit db = (Raise OverflowError, db))).
Proof.
  split; [| split].
  - intros now sid db Hnot. unfold clear_session.
    destruct (first _ _) as [s |] eqn:Hfirst; [| reflexivity].
    exfalso. apply Hnot. apply first_some in Hfirst.
    destruct Hfirst as (Hs & Hk). apply String.eqb_eq in Hk.
    unfold session_keys. rewrite <- Hk. apply in_map. exact Hs.
  - intros env task_id w Hrow. split.
    { destruct (execute_outcome env task_id w)
        as [H | (t & sg & Hrow' & _)]; [exact H | congruence]. }
    split; [| split].
    + run_firing.
      destruct (open_fault env); [reflexivity |].
      destruct (query_fault env); simpl.
      { destruct (close_fault env); reflexivity. }
      rewrite Hrow. simpl. destruct (close_fault env); reflexivity.
    + run_firing.
      destruct (open_fault env); [reflexivity |].
      destruct (query_fault env); simpl.
      { destruct (close_fault env); reflexivity. }
      rewrite Hrow. simpl. destruct (close_fault env); reflexivity.
    + intros (Ho & Hq & _ & Hx). run_firing. rewrite Ho, Hq, Hx. simpl.
      rewrite Hrow. reflexivity.
  - intros sid limit db _. split.
    + intros Hin. unfold get_session_history. rewrite Hin.
      split; [reflexivity |].
      intros Hnone. unfold history_rows. rewrite filter_none.
      * unfold sql_limit. simpl. destruct (limit <? 0)%Z; [reflexivity |].
        rewrite firstn_nil. reflexivity.
      * intros m Hm. apply String.eqb_neq. apply Hnone. exact Hm.
    + intros Hout. unfold get_session_history. rewrite Hout. reflexivity.
Qed.

Lemma unknown_id_completes_silently_witness :
  clear_session 1700000000500000 "session_U9_0.0" empty_store
  = (Ok tt, empty_store)
  /\ execute_scheduled_task (client_up 60) "T9" two_tasks
     = (Ok tt,
        mkWorld (store two_tasks) (posted two_tasks)
          (log two_tasks ++ [LogWarning "Task T9 not found or inactive"]))
  /\ get_session_history "session_U9_0.0" 50 empty_store = (Ok [], empty_store).
Proof.
  split; [| split].
  - apply (proj1 unknown_id_completes_silently). intros [].
  - apply (proj1 (proj2 unknown_id_completes_silently)
             (client_up 60) "T9" two_tasks).
    + reflexivity.
    + repeat split.
  - apply (proj2 (proj2 unknown_id_completes_silently)
             "session_U9_0.0" 50 empty_store).
    + intros [].
    + reflexivity.
    + intros m [].
Defined.

(** C3 as stated fails: no operation on an unknown id raises. *)
Lemma unknown_id_raises_nothing :
  ~ In "session_U9_0.0" (session_keys empty_store)
  /\ task_row "T9" two_tasks = None
  /\ (forall e, fst (clear_session 1700000000500000 "session_U9_0.0" empty_store)
                <> Raise e)
  /\ (forall e, fst (execute_scheduled_task (client_up 60) "T9" two_tasks)
                <> Raise e)
  /\ (forall e, fst (get_session_history "session_U9_0.0" 50 empty_store)
                <> Raise e).
Proof.
  split; [intros [] |]. split; [reflexivity |].
  repeat split; intros e H; vm_compute in H; discriminate H.
Qed.



(** ** History reads *)

Lemma insert_by_timestamp_sorted (m : Message.t) (l : list Message.t) :
  Sorted by_timestamp l -> Sorted by_timestamp (insert_by_timestamp m l).
Proof.
  induction l as [| m' l IH]; simpl; intros Hs.
  - repeat constructor.
  - destruct (Message.timestamp m <=? Message.timestamp m')%Z eqn:E.
    + apply Z.leb_le in E. constructor; [exact Hs |]. constructor. exact E.
    + apply Z.leb_gt in E. inversion Hs as [| ? ? Hs' Hhd]; subst.
      constructor; [apply IH; exact Hs' |].
      destruct l as [| m'' l]; simpl.
      * constructor. unfold by_timestamp. lia.
      * destruct (Message.timestamp m <=? Message.timestamp m'')%Z.
        -- constructor. unfold by_timestamp. lia.
        -- constructor. inversion Hhd; subst. assumption.
Qed.

Lemma insert_by_timestamp_perm (m : Message.t) (l : list Message.t) :
  Permutation (m :: l) (insert_by_timestamp m l).
Proof.
  induction l as [| m' l IH]; simpl; [reflexivity |].
  destruct (Message.timestamp m <=? Message.timestamp m')%Z; [reflexivity |].
  rewrite perm_swap. apply perm_skip. exact IH.
Qed.

Lemma order_by_timestamp_sorted (rows : list Message.t) :
  StronglySorted by_timestamp (order_by_timestamp rows).
Proof.
  apply Sorted_StronglySorted.
  - intros a b c. unfold by_timestamp. lia.
  - induction rows as [| m rows IH]; simpl; [constructor |].
    apply insert_by_timestamp_sorted. exact IH.
Qed.

Lemma order_by_timestamp_perm (rows : list Message.t) :
  Permutation rows (order_by_timestamp rows).
Proof.
  induction rows as [| m rows IH]; simpl; [reflexivity |].
  rewrite <- insert_by_timestamp_perm. apply perm_skip. exact IH.
Qed.

Lemma StronglySorted_split {A} (R : A -> A -> Prop) (l1 l2 : list A) :
  StronglySorted R (l1 ++ l2) ->
  StronglySorted R l1 /\ forall a b, In a l1 -> In b l2 -> R a b.
Proof.
  induction l1 as [| x l1 IH]; simpl; intros Hs.
  - split; [constructor | intros a b []].
  - inversion Hs as [| ? ? Hs' Hall]; subst.
    destruct (IH Hs') as (Hs1 & Hcross). split.
    + constructor; [exact Hs1 |].
      apply Forall_app in Hall. apply Hall.
    + intros a b [<- | Ha] Hb.
      * rewrite Forall_forall in Hall. apply Hall.
        apply in_or_app. right. exact Hb.
      * apply Hcross; assumption.
Qed.

Lemma StronglySorted_entries (rows : list Message.t) :
  StronglySorted by_timestamp rows -> entries_ascending (map entry_of rows).
Proof.
  unfold entries_ascending. induction 1 as [| m rows Hs IH Hall]; simpl.
  - constructor.
  - constructor; [exact IH |].
    rewrite Forall_map. exact Hall.
Qed.

Lemma int64_in_range (n : Z) : - 2 ^ 63 <= n < 2 ^ 63 -> int64 n = true.
Proof.
  intros (Hlo & Hhi). unfold int64.
  apply andb_true_intro. split; [apply Z.leb_le | apply Z.ltb_lt]; assumption.
Qed.

Lemma get_session_history_in_range (sid : string) (limit : Z) (db : Store) :
  int64 limit = true ->
  get_session_history sid limit db
  = (Ok (map entry_of (history_rows sid limit db)), db).
Proof. intros H. unfold get_session_history. rewrite H. reflexivity. Qed.

Lemma get_session_history_default (sid : string) (db : Store) :
  get_session_history sid 50 db
  = (Ok (map entry_of (history_rows sid 50 db)), db).
Proof. reflexivity. Qed.

(** What the read does return.  For every session id and every limit N
    with 0 <= N < 2^63 the history read returns at most N messages, in
    ascending timestamp order, and they are the first N of the session's
    log sorted by timestamp: when the session holds more than N messages,
    the N returned are the oldest ones, and every message left out is at
    least as recent as every message returned. *)
Theorem history_is_head_window (sid : string) (limit : Z) (db : Store) :
  0 <= limit < 2 ^ 63 ->
  exists entries,
    get_session_history sid limit db = (Ok entries, db)
    /\ Z.of_nat (List.length entries) <= limit
    /\ entries_ascending entries
    /\ entries = firstn (Z.to_nat limit) (map entry_of (session_log sid db))
    /\ (limit <= Z.of_nat (List.length (session_log sid db)) ->
        Z.of_nat (List.length entries) = limit)
    /\ (exists rest,
          map entry_of (session_log sid db) = (entries ++ rest)%list
          /\ forall e e', In e entries -> In e' rest ->
                          entry_timestamp e <= entry_timestamp e')
    /\ Permutation (session_log sid db)
         (filter (fun m => String.eqb (Message.session_id m) sid) (messages db)).
Proof.
  intros (Hlimit & Hbound).
  assert (Hin : int64 limit = true) by (apply int64_in_range; lia).
  assert (Hcut : map entry_of (history_rows sid limit db)
                 = firstn (Z.to_nat limit) (map entry_of (session_log sid db))).
  { unfold history_rows, session_log, sql_limit.
    destruct (limit <? 0)%Z eqn:E; [apply Z.ltb_lt in E; lia |].
    symmetry. apply firstn_map. }
  pose proof (StronglySorted_entries _
                (order_by_timestamp_sorted
                   (filter (fun m => String.eqb (Message.session_id m) sid)
                           (messages db)))) as Hsorted.
  fold (session_log sid db) in Hsorted.
  pose proof (firstn_skipn (Z.to_nat limit)
                (map entry_of (session_log sid db))) as Hsplit.
  unfold entries_ascending in Hsorted. rewrite <- Hsplit in Hsorted.
  apply StronglySorted_split in Hsorted. destruct Hsorted as (Hhead & Hcross).
  exists (map entry_of (history_rows sid limit db)).
  split; [apply get_session_history_in_range; exact Hin |]. rewrite Hcut.
  split.
  { rewrite length_firstn. lia. }
  split; [exact Hhead |]. split; [reflexivity |]. split.
  { intros Hlong. rewrite length_firstn, length_map. lia. }
  split.
  { eexists. split; [symmetry; exact Hsplit | exact Hcross]. }
  unfold session_log. symmetry. apply order_by_timestamp_perm.
Qed.

Lemma history_is_head_window_witness :
  exists entries,
    get_session_history "S1" 2 three_messages = (Ok entries, three_messages)
    /\ Z.of_nat (List.length entries) <= 2
    /\ entries_ascending entries
    /\ entries = firstn (Z.to_nat 2) (map entry_of (session_log "S1" three_messages))
    /\ (2 <= Z.of_nat (List.length (session_log "S1" three_messages)) ->
        Z.of_nat (List.length entries) = 2)
    /\ (exists rest,
          map entry_of (session_log "S1" three_messages) = (entries ++ rest)%list
          /\ forall e e', In e entries -> In e' rest ->
                          entry_timestamp e <= entry_timestamp e')
    /\ Permutation (session_log "S1" three_messages)
         (filter (fun m => String.eqb (Message.session_id m) "S1")
                 (messages three_messages)).
Proof.
  apply (history_is_head_window "S1" 2 three_messages). lia.
Defined.

(** C2.  The read does not return the tail window the claim states, and
    that the caller of [agent/core.py] relies on when it keeps the last
    ten entries as the latest messages: with three messages stored under
    a session and a limit of two, the read returns the two oldest
    messages, not the two most recent. *)
Lemma history_is_not_tail_window :
  fst (get_session_history "S1" 2 three_messages)
  = Ok [mkEntry "user" "one" 10; mkEntry "assistant" "two" 20]
  /\ most_recent 2 (map entry_of (session_log "S1" three_messages))
     = [mkEntry "assistant" "two" 20; mkEntry "user" "three" 30]
  /\ fst (get_session_history "S1" 2 three_messages)
     <> Ok (most_recent 2 (map entry_of (session_log "S1" three_messages))).
Proof.
  split; [reflexivity |]. split; [reflexivity |].
  vm_compute. intros H. discriminate H.
Qed.

(** A negative limit puts no bound on the rows: the whole log comes
    back. *)
Lemma negative_limit_is_no_limit (sid : string) (limit : Z) (db : Store) :
  - 2 ^ 63 <= limit < 0 ->
  get_session_history sid limit db
  = (Ok (map entry_of (session_log sid db)), db).
Proof.
  intros (Hlo & H).
  rewrite get_session_history_in_range by (apply int64_in_range; lia).
  unfold history_rows, session_log, sql_limit.
  apply Z.ltb_lt in H. rewrite H. reflexivity.
Qed.

(** * Further properties of the code *)

(** ** Appending to the history *)

Lemma insert_by_timestamp_last (x m : Message.t) (sorted : list Message.t) :
  Message.timestamp x <= Message.timestamp m ->
  insert_by_timestamp x (sorted ++ [m]) = (insert_by_timestamp x sorted ++ [m])%list.
Proof.
  intros Hle. induction sorted as [| y sorted IH]; simpl.
  - apply Z.leb_le in Hle. rewrite Hle. reflexivity.
  - destruct (Message.timestamp x <=? Message.timestamp y)%Z; [reflexivity |].
    rewrite IH. reflexivity.
Qed.

Lemma order_by_timestamp_snoc (rows : list Message.t) (m : Message.t) :
  (forall x, In x rows -> Message.timestamp x <= Message.timestamp m) ->
  order_by_timestamp (rows ++ [m]) = (order_by_timestamp rows ++ [m])%list.
Proof.
  unfold order_by_timestamp. rewrite fold_right_app. simpl.
  induction rows as [| x rows IH]; simpl; intros Hle; [reflexivity |].
  rewrite IH by (intros y Hy; apply Hle; right; exact Hy).
  apply insert_by_timestamp_last. apply Hle. left. reflexivity.
Qed.

Lemma session_log_add_same (now : Z) (sid role content : string)
    (meta : option string) (db : Store) :
  (forall m, In m (messages db) -> Message.session_id m = sid ->
             Message.timestamp m <= now) ->
  session_log sid (snd (add_message now sid role content meta db))
  = (session_log sid db
     ++ [Message.mk (next_message_id (messages db)) sid role content now meta])%list.
Proof.
  intros Hle. unfold session_log, add_message. simpl.
  rewrite filter_app. simpl. rewrite String.eqb_refl.
  apply order_by_timestamp_snoc. simpl.
  intros x Hx. apply filter_In in Hx. destruct Hx as (Hx & Hs).
  apply String.eqb_eq in Hs. apply Hle; assumption.
Qed.

Lemma session_log_add_other (now : Z) (sid sid' role content : string)
    (meta : option string) (db : Store) :
  sid' <> sid ->
  session_log sid' (snd (add_message now sid role content meta db))
  = session_log sid' db.
Proof.
  intros Hne. unfold session_log, add_message. simpl.
  rewrite filter_app. simpl.
  assert (String.eqb sid sid' = false) as ->.
  { apply String.eqb_neq. congruence. }
  rewrite app_nil_r. reflexivity.
Qed.

Lemma history_rows_of_log (sid : string) (limit : Z) (db : Store) :
  history_rows sid limit db = sql_limit limit (session_log sid db).
Proof. reflexivity. Qed.

(** X1.  A message added with a timestamp no earlier than those of its
    session is the last of the session's log, and a read whose limit
    exceeds the old length of the log (and is below 2^63, so that it can
    be bound to the statement) returns the old entries followed by the
    new one. *)
Theorem add_message_then_read (now : Z) (sid role content : string)
    (meta : option string) (limit : Z) (db : Store) :
  (forall m, In m (messages db) -> Message.session_id m = sid ->
             Message.timestamp m <= now) ->
  Z.of_nat (List.length (session_log sid db)) < limit ->
  limit < 2 ^ 63 ->
  let db' := snd (add_message now sid role content meta db) in
  get_session_history sid limit db'
  = (Ok (map entry_of (session_log sid db) ++ [mkEntry role content now])%list,
     db').
Proof.
  intros Hle Hlim Hbound db'. subst db'.
  rewrite get_session_history_in_range by (apply int64_in_range; lia).
  rewrite history_rows_of_log.
  rewrite session_log_add_same by exact Hle.
  unfold sql_limit. destruct (limit <? 0)%Z eqn:E.
  - apply Z.ltb_lt in E. lia.
  - rewrite firstn_all2.
    + rewrite map_app. reflexivity.
    + rewrite length_app. simpl. lia.
Qed.

Lemma add_message_then_read_witness :
  get_session_history "S1" 50
    (snd (add_message 40 "S1" "assistant" "four" None three_messages))
  = (Ok (map entry_of (session_log "S1" three_messages)
         ++ [mkEntry "assistant" "four" 40])%list,
     snd (add_message 40 "S1" "assistant" "four" None three_messages)).
Proof.
  apply (add_message_then_read 40 "S1" "assistant" "four" None 50 three_messages).
  - intros m Hm _. simpl in Hm.
    destruct Hm as [<- | [<- | [<- | []]]]; simpl; lia.
  - simpl. lia.
  - lia.
Defined.

(** X2.  Adding a message to one session changes no other session's
    history, whatever the limit, and leaves the session and task tables
    as they are. *)
Theorem add_message_other_sessions (now : Z) (sid sid' role content : string)
    (meta : option string) (limit : Z) (db : Store) :
  sid' <> sid ->
  let db' := snd (add_message now sid role content meta db) in
  fst (get_session_history sid' limit db') = fst (get_session_history sid' limit db)
  /\ conversation_sessions db' = conversation_sessions db
  /\ scheduled_tasks db' = scheduled_tasks db.
Proof.
  intros Hne db'. subst db'. split; [| split; reflexivity].
  unfold get_session_history.
  destruct (int64 limit); cbn [fst]; [| reflexivity].
  rewrite !history_rows_of_log.
  rewrite session_log_add_other by exact Hne. reflexivity.
Qed.

Lemma add_message_other_sessions_witness :
  fst (get_session_history "S2" 50
         (snd (add_message 40 "S1" "user" "four" None three_messages)))
  = fst (get_session_history "S2" 50 three_messages).
Proof.
  apply (add_message_other_sessions 40 "S1" "S2" "user" "four" None 50
           three_messages).
  discriminate.
Defined.

Lemma read_after_add_saturated (now : Z) (sid role content : string)
    (meta : option string) (limit : Z) (db : Store) :
  (forall m, In m (messages db) -> Message.session_id m = sid ->
             Message.timestamp m <= now) ->
  0 <= limit <= Z.of_nat (List.length (session_log sid db)) ->
  fst (get_session_history sid limit
         (snd (add_message now sid role content meta db)))
  = fst (get_session_history sid limit db).
Proof.
  intros Hle Hlim.
  unfold get_session_history.
  destruct (int64 limit); cbn [fst]; [| reflexivity].
  rewrite !history_rows_of_log.
  rewrite session_log_add_same by exact Hle.
  unfold sql_limit. destruct (limit <? 0)%Z eqn:E.
  - apply Z.ltb_lt in E. lia.
  - rewrite firstn_app.
    replace (Z.to_nat limit - List.length (session_log sid db))%nat with 0%nat
      by lia.
    simpl. rewrite app_nil_r. reflexivity.
Qed.

(** X3.  Once a session's log holds at least N messages (N >= 0), a
    message added with a timestamp no earlier than theirs is not
    returned by a read with limit N: the read gives what it gave before
    the message was added. *)
Theorem add_message_beyond_limit_unseen (now : Z) (sid role content : string)
    (meta : option string) (limit : Z) (db : Store) :
  (forall m, In m (messages db) -> Message.session_id m = sid ->
             Message.timestamp m <= now) ->
  0 <= limit <= Z.of_nat (List.length (session_log sid db)) ->
  fst (get_session_history sid limit
         (snd (add_message now sid role content meta db)))
  = fst (get_session_history sid limit db).
Proof. apply read_after_add_saturated. Qed.

Lemma add_message_beyond_limit_unseen_witness :
  fst (get_session_history "S1" 2
         (snd (add_message 40 "S1" "user" "four" None three_messages)))
  = fst (get_session_history "S1" 2 three_messages).
Proof.
  apply (add_message_beyond_limit_unseen 40 "S1" "user" "four" None 2
           three_messages).
  - intros m Hm _. simpl in Hm.
    destruct Hm as [<- | [<- | [<- | []]]]; simpl; lia.
  - split; [lia | vm_compute; discriminate].
Defined.

Lemma next_message_id_above (table : list Message.t) (m : Message.t) :
  In m table -> Message.id m < next_message_id table.
Proof.
  unfold next_message_id. induction table as [| x table IH];
    cbn [fold_right In].
  - intros [].
  - intros [-> | Hm]; [lia |]. specialize (IH Hm). lia.
Qed.

(** ** More on sessions *)

Lemma resolve_keeps_wf (timestamp_text : Z -> string) (now : Z) (user : string)
    (channel thread : option string) (db : Store) :
  wf_sessions db ->
  wf_sessions (snd (get_or_create_session timestamp_text now user channel thread db)).
Proof.
  intros Hwf.
  destruct (get_or_create_session timestamp_text now user channel thread db)
    as [[sid | e | sg] db1] eqn:Hres.
  - apply (resolve_returned _ _ _ _ _ _ _ _ Hres). exact Hwf.
  - unfold get_or_create_session in Hres.
    destruct (first _ _); [discriminate |].
    destruct (existsb _ _); [| discriminate].
    injection Hres as _ <-. exact Hwf.
  - unfold get_or_create_session in Hres.
    destruct (first _ _); [discriminate |].
    destruct (existsb _ _); discriminate.
Qed.

(** X5.  The primary key of the sessions table stays unique under every
    operation of [database.py]: a resolve (found, created or rejected),
    a clear and an added message. *)
Theorem session_keys_stay_unique (timestamp_text : Z -> string) (db : Store) :
  wf_sessions db ->
  (forall now user channel thread,
     wf_sessions
       (snd (get_or_create_session timestamp_text now user channel thread db)))
  /\ (forall now sid, wf_sessions (snd (clear_session now sid db)))
  /\ (forall now sid role content meta,
        wf_sessions (snd (add_message now sid role content meta db))).
Proof.
  intros Hwf. split; [| split].
  - intros. apply resolve_keeps_wf. exact Hwf.
  - intros now sid. unfold wf_sessions.
    fold (session_keys (snd (clear_session now sid db))).
    rewrite clear_session_keys. exact Hwf.
  - intros. exact Hwf.
Qed.

Lemma session_keys_stay_unique_witness :
  wf_sessions
    (snd (get_or_create_session posix_text 1700000060000000 "U2" None None
            (mkStore [thread_session] [] []))).
Proof.
  apply (session_keys_stay_unique posix_text (mkStore [thread_session] [] [])).
  unfold wf_sessions. simpl. repeat constructor. intros [].
Defined.

(** X6.  Clearing a session a second time changes nothing: the flag is
    already false, no row is written and [updated_at] keeps the value
    the first clear gave it. *)
Theorem clear_session_twice (now1 now2 : Z) (sid : string) (db : Store) :
  clear_session now2 sid (snd (clear_session now1 sid db))
  = (Ok tt, snd (clear_session now1 sid db)).
Proof.
  destruct (first (fun r => String.eqb (ConversationSession.session_id r) sid)
              (conversation_sessions db)) as [s |] eqn:Hfirst.
  - destruct (ConversationSession.is_active s) eqn:Hact.
    + assert (Hdb1 : snd (clear_session now1 sid db)
                     = with_sessions
                         (update_where ConversationSession.session_id sid
                            (fun r => ConversationSession.set_updated_at now1
                                        (ConversationSession.set_is_active false r))
                            (conversation_sessions db)) db).
      { unfold clear_session. rewrite Hfirst, Hact. reflexivity. }
      rewrite Hdb1. unfold clear_session. cbn [conversation_sessions with_sessions].
      rewrite first_update_where_same by reflexivity.
      rewrite Hfirst. reflexivity.
    + assert (Hdb1 : snd (clear_session now1 sid db) = db).
      { unfold clear_session. rewrite Hfirst, Hact. reflexivity. }
      rewrite Hdb1. unfold clear_session. rewrite Hfirst, Hact. reflexivity.
  - assert (Hdb1 : snd (clear_session now1 sid db) = db).
    { unfold clear_session. rewrite Hfirst. reflexivity. }
    rewrite Hdb1. unfold clear_session. rewrite Hfirst. reflexivity.
Qed.

Lemma resolve_returned_row
    (timestamp_text : Z -> string) (now : Z) (user : string)
    (channel thread : option string) (db db1 : Store) (sid : string) :
  get_or_create_session timestamp_text now user channel thread db
  = (Ok sid, db1) ->
  exists row,
    In row (conversation_sessions db1)
    /\ ConversationSession.session_id row = sid
    /\ ConversationSession.user_id row = user
    /\ ConversationSession.is_active row = true
    /\ (truthy channel = true -> ConversationSession.channel_id row = channel)
    /\ (truthy thread = true -> ConversationSession.thread_ts row = thread).
Proof.
  unfold get_or_create_session.
  destruct (first _ _) as [s |] eqn:Hfirst.
  - intros H. injection H as <- <-.
    apply first_some in Hfirst. destruct Hfirst as (Hin & Hp).
    unfold session_filter in Hp.
    apply andb_prop in Hp. destruct Hp as (Hp & Ht).
    apply andb_prop in Hp. destruct Hp as (Hp & Hc).
    apply andb_prop in Hp. destruct Hp as (Hu & Ha).
    apply String.eqb_eq in Hu.
    exists (ConversationSession.set_updated_at now s). simpl.
    split.
    { unfold update_where. apply in_map_iff. exists s.
      rewrite String.eqb_refl. auto. }
    repeat split; auto.
    + intros Htr. rewrite Htr in Hc.
      destruct channel as [c |]; [| discriminate]. simpl in Hc.
      destruct (ConversationSession.channel_id s) as [c' |]; [| discriminate].
      simpl in Hc. apply String.eqb_eq in Hc. congruence.
    + intros Htr. rewrite Htr in Ht.
      destruct thread as [t |]; [| discriminate]. simpl in Ht.
      destruct (ConversationSession.thread_ts s) as [t' |]; [| discriminate].
      simpl in Ht. apply String.eqb_eq in Ht. congruence.
  - destruct (existsb _ _); [discriminate |].
    intros H. injection H as <- <-. simpl.
    eexists. split.
    { apply in_or_app. right. left. reflexivity. }
    simpl. repeat split; auto.
Qed.

(** X7.  The session a resolve returns is stored, active, owned by the
    user, and agrees with each identity field that was supplied truthy. *)
Theorem resolve_returns_matching_session
    (timestamp_text : Z -> string) (now : Z) (user : string)
    (channel thread : option string) (db db1 : Store) (sid : string) :
  get_or_create_session timestamp_text now user channel thread db
  = (Ok sid, db1) ->
  exists row,
    In row (conversation_sessions db1)
    /\ ConversationSession.session_id row = sid
    /\ ConversationSession.user_id row = user
    /\ ConversationSession.is_active row = true
    /\ (truthy channel = true -> ConversationSession.channel_id row = channel)
    /\ (truthy thread = true -> ConversationSession.thread_ts row = thread).
Proof. apply resolve_returned_row. Qed.

Lemma resolve_returns_matching_session_witness :
  exists row,
    In row (conversation_sessions
              (snd (get_or_create_session posix_text 1700000060000000 "U1"
                      (Some "C1") (Some "1699999999.000100")
                      (mkStore [thread_session] [] [])))) 
    /\ ConversationSession.session_id row = "session_U1_1700000000.5"
    /\ ConversationSession.user_id row = "U1"
    /\ ConversationSession.is_active row = true
    /\ (truthy (Some "C1") = true ->
        ConversationSession.channel_id row = Some "C1")
    /\ (truthy (Some "1699999999.000100") = true ->
        ConversationSession.thread_ts row = Some "1699999999.000100").
Proof.
  apply (resolve_returns_matching_session posix_text 1700000060000000 "U1"
           (Some "C1") (Some "1699999999.000100")
           (mkStore [thread_session] [] [])).
  reflexivity.
Defined.

(** X8.  A resolve never deletes or deactivates a session and never
    touches messages or tasks: whatever it returns, every row that was
    stored is still there, at most its [updated_at] refreshed, and at
    most one row is added after them. *)
Theorem resolve_frame (timestamp_text : Z -> string) (now : Z) (user : string)
    (channel thread : option string) (db : Store) :
  let db1 := snd (get_or_create_session timestamp_text now user channel thread db) in
  messages db1 = messages db
  /\ scheduled_tasks db1 = scheduled_tasks db
  /\ exists kept added,
       conversation_sessions db1 = (kept ++ added)%list
       /\ Forall2 (fun r r' => r' = r \/ r' = ConversationSession.set_updated_at now r)
            (conversation_sessions db) kept
       /\ (List.length added <= 1)%nat.
Proof.
  unfold get_or_create_session.
  destruct (first _ _) as [s |]; simpl.
  - repeat split.
    exists (update_where ConversationSession.session_id
              (ConversationSession.session_id s)
              (ConversationSession.set_updated_at now)
              (conversation_sessions db)), [].
    rewrite app_nil_r. split; [reflexivity |]. split; [| simpl; lia].
    unfold update_where. apply Forall2_map_self.
    intros r. destruct (String.eqb _ _); auto.
  - destruct (existsb _ _); simpl.
    + repeat split. exists (conversation_sessions db), [].
      rewrite app_nil_r. split; [reflexivity |]. split; [| simpl; lia].
      apply Forall2_diag. auto.
    + repeat split. eexists _, _. split; [reflexivity |].
      split; [| simpl; lia]. apply Forall2_diag. auto.
Qed.

Lemma resolve_keeps_rows (timestamp_text : Z -> string) (now : Z) (user : string)
    (channel thread : option string) (db : Store) (r : ConversationSession.t) :
  In r (conversation_sessions db) ->
  exists r',
    In r' (conversation_sessions
             (snd (get_or_create_session timestamp_text now user channel
                     thread db)))
    /\ ConversationSession.session_id r' = ConversationSession.session_id r
    /\ ConversationSession.user_id r' = ConversationSession.user_id r.
Proof.
  intros Hin. unfold get_or_create_session.
  destruct (first _ _) as [s |]; simpl.
  - eexists. split.
    + unfold update_where. apply in_map. exact Hin.
    + destruct (String.eqb _ _); auto.
  - destruct (existsb _ _); simpl.
    + exists r. auto.
    + exists r. split; [apply in_or_app; left; exact Hin | auto].
Qed.

(** X9.  Two users never share a session: with a unique primary key, a
    resolve for one user followed by a resolve for another user returns
    two different session ids. *)
Theorem users_get_distinct_sessions
    (timestamp_text : Z -> string) (now1 now2 : Z) (user1 user2 : string)
    (channel1 thread1 channel2 thread2 : option string)
    (db db1 db2 : Store) (sid1 sid2 : string) :
  wf_sessions db ->
  user1 <> user2 ->
  get_or_create_session timestamp_text now1 user1 channel1 thread1 db
  = (Ok sid1, db1) ->
  get_or_create_session timestamp_text now2 user2 channel2 thread2 db1
  = (Ok sid2, db2) ->
  sid1 <> sid2.
Proof.
  intros Hwf Hne H1 H2 Heq.
  destruct (resolve_returned_row _ _ _ _ _ _ _ _ H1)
    as (r1 & Hin1 & Hk1 & Hu1 & _).
  destruct (resolve_returned_row _ _ _ _ _ _ _ _ H2)
    as (r2 & Hin2 & Hk2 & Hu2 & _).
  destruct (resolve_keeps_rows timestamp_text now2 user2 channel2 thread2 db1 r1 Hin1)
    as (r1' & Hin1' & Hk1' & Hu1').
  rewrite H2 in Hin1'. simpl in Hin1'.
  assert (Hwf2 : wf_sessions db2).
  { pose proof (resolve_keeps_wf timestamp_text now1 user1 channel1 thread1
                  db Hwf) as Hw1.
    rewrite H1 in Hw1.
    pose proof (resolve_keeps_wf timestamp_text now2 user2 channel2 thread2
                  db1 Hw1) as Hw2.
    rewrite H2 in Hw2. exact Hw2. }
  assert (r1' = r2).
  { apply (unique_row ConversationSession.session_id _ _ _ Hwf2 Hin1' Hin2).
    congruence. }
  subst r2. congruence.
Qed.

Lemma users_get_distinct_sessions_witness :
  "session_U1_1700000000.5" <> "session_U2_1700000000.5".
Proof.
  pose (db1 := snd (get_or_create_session posix_text 1700000000500000 "U1"
                      (Some "C1") None empty_store)).
  pose (db2 := snd (get_or_create_session posix_text 1700000000500000 "U2"
                      (Some "C1") None db1)).
  apply (users_get_distinct_sessions posix_text 1700000000500000
           1700000000500000 "U1" "U2" (Some "C1") None (Some "C1") None
           empty_store db1 db2).
  - constructor.
  - discriminate.
  - reflexivity.
  - reflexivity.
Defined.

(** ** More on the dispatcher *)

Lemma execute_skips_inactive (env : firing) (task_id : string) (w : world)
    (task : ScheduledTask.t) :
  task_row task_id w = Some task ->
  ScheduledTask.is_active task = false ->
  store (snd (execute_scheduled_task env task_id w)) = store w
  /\ posted (snd (execute_scheduled_task env task_id w)) = posted w.
Proof.
  intros Hrow Hact. run_firing.
  destruct (open_fault env); [split; reflexivity |].
  destruct (query_fault env); simpl.
  { destruct (close_fault env); split; reflexivity. }
  rewrite Hrow, Hact. simpl. destruct (close_fault env); split; reflexivity.
Qed.

(** X10.  A one-time task is delivered at most once: after a firing that
    delivered and was recorded, any further firing of the same task,
    whatever its surroundings, posts nothing and changes nothing in the
    database. *)
Theorem one_time_task_not_delivered_twice
    (env1 env2 : firing) (task_id : string) (w : world) (task : ScheduledTask.t) :
  store_sound env1 ->
  task_row task_id w = Some task ->
  ScheduledTask.is_active task = true ->
  ScheduledTask.is_recurring task = false ->
  delivery_returns env1 task ->
  let w1 := snd (execute_scheduled_task env1 task_id w) in
  let w2 := snd (execute_scheduled_task env2 task_id w1) in
  posted w2 = posted w1 /\ store w2 = store w1.
Proof.
  intros Hs Hrow Hact Hrec Hret w1 w2. subst w1 w2.
  destruct (execute_delivered env1 task_id w task Hs Hrow Hact Hret)
    as (Hrow1 & _).
  assert (Hoff : ScheduledTask.is_active (fired (utcnow env1) task) = false).
  { destruct (fired_fields (utcnow env1) task) as (_ & Ha & _).
    rewrite Ha, Hrec. reflexivity. }
  destruct (execute_skips_inactive env2 task_id _ _ Hrow1 Hoff) as (Hst & Hp).
  split; assumption.
Qed.

Lemma one_time_task_not_delivered_twice_witness :
  let w1 := snd (execute_scheduled_task (client_up 10) "T1" two_tasks) in
  let w2 := snd (execute_scheduled_task (client_up 20) "T1" w1) in
  posted w2 = posted w1 /\ store w2 = store w1.
Proof.
  apply (one_time_task_not_delivered_twice (client_up 10) (client_up 20) "T1"
           two_tasks reminder_T1).
  - repeat split.
  - reflexivity.
  - reflexivity.
  - reflexivity.
  - simpl. exists true. reflexivity.
Defined.

(** X11.  When the message is posted but the commit then fails, the
    firing is not recorded: the database is unchanged and the task still
    active, so the next firing whose store works posts the same message a
    second time. *)
Theorem commit_failure_repeats_delivery
    (env1 env2 : firing) (task_id : string) (w : world) (task : ScheduledTask.t)
    (e : exn) :
  open_fault env1 = None -> query_fault env1 = None ->
  commit_fault env1 = Some e ->
  slack_client env1 <> None -> slack_client env2 <> None ->
  store_sound env2 ->
  task_row task_id w = Some task ->
  ScheduledTask.is_active task = true ->
  delivery_returns env1 task -> delivery_returns env2 task ->
  let w1 := snd (execute_scheduled_task env1 task_id w) in
  let w2 := snd (execute_scheduled_task env2 task_id w1) in
  store w1 = store w
  /\ posted w1 = (posted w ++ [(ScheduledTask.channel_id task,
                                reminder_text task)])%list
  /\ posted w2 = (posted w ++ [(ScheduledTask.channel_id task, reminder_text task);
                               (ScheduledTask.channel_id task, reminder_text task)])%list
  /\ task_row task_id w2 = Some (fired (utcnow env2) task).
Proof.
  intros Ho Hq Hc Hcl1 Hcl2 Hs2 Hrow Hact Hret1 Hret2 w1 w2.
  assert (H1 : store w1 = store w
               /\ posted w1 = (posted w ++ [(ScheduledTask.channel_id task,
                                             reminder_text task)])%list).
  { subst w1 w2. unfold delivery_returns in Hret1. run_firing.
    rewrite Ho, Hq, Hc. simpl. rewrite Hrow, Hact. simpl.
    destruct (slack_client env1) as [client |]; [| congruence].
    destruct Hret1 as [ok Hok]. simpl. rewrite Hok. simpl.
    destruct (close_fault env1); split; reflexivity. }
  destruct H1 as (Hst1 & Hp1).
  assert (Hrow1 : task_row task_id w1 = Some task).
  { unfold task_row in *. rewrite Hst1. exact Hrow. }
  destruct (execute_delivered env2 task_id w1 task Hs2 Hrow1 Hact Hret2)
    as (Hrow2 & _ & _ & Hp2).
  fold w2 in Hrow2, Hp2.
  split; [exact Hst1 |]. split; [exact Hp1 |]. split; [| exact Hrow2].
  rewrite Hp2. destruct (slack_client env2); [| congruence].
  rewrite Hp1, <- app_assoc. reflexivity.
Qed.

Lemma commit_failure_repeats_delivery_witness :
  let env1 := mkFiring 10 (Some (fun _ _ => Responded true)) None None
                (Some (Exception "OperationalError")) None in
  let w1 := snd (execute_scheduled_task env1 "T1" two_tasks) in
  let w2 := snd (execute_scheduled_task (client_up 20) "T1" w1) in
  store w1 = store two_tasks
  /\ posted w1 = [("C1", reminder_text reminder_T1)]
  /\ posted w2 = [("C1", reminder_text reminder_T1);
                  ("C1", reminder_text reminder_T1)]
  /\ task_row "T1" w2 = Some (fired 20 reminder_T1).
Proof.
  apply (commit_failure_repeats_delivery
           (mkFiring 10 (Some (fun _ _ => Responded true)) None None
              (Some (Exception "OperationalError")) None)
           (client_up 20) "T1" two_tasks reminder_T1
           (Exception "OperationalError")).
  - reflexivity.
  - reflexivity.
  - reflexivity.
  - discriminate.
  - discriminate.
  - repeat split.
  - reflexivity.
  - reflexivity.
  - simpl. exists true. reflexivity.
  - simpl. exists true. reflexivity.
Defined.

Lemma firing_frame_keys (env : firing) (task_id : string) (w : world) :
  map ScheduledTask.task_id
    (scheduled_tasks (store (snd (execute_scheduled_task env task_id w))))
  = map ScheduledTask.task_id (scheduled_tasks (store w)).
Proof.
  run_firing.
  destruct (open_fault env); [reflexivity |].
  destruct (query_fault env); simpl.
  { destruct (close_fault env); reflexivity. }
  destruct (first _ _) as [task |]; simpl.
  2: { destruct (close_fault env); reflexivity. }
  destruct (ScheduledTask.is_active task); simpl.
  2: { destruct (close_fault env); reflexivity. }
  destruct (slack_client env) as [client |]; simpl.
  - destruct (client _ _); simpl.
    + destruct (commit_fault env); simpl; destruct (close_fault env); simpl;
        try reflexivity; apply update_where_pk; reflexivity.
    + destruct (close_fault env); reflexivity.
    + destruct (close_fault env); reflexivity.
  - destruct (commit_fault env); simpl; destruct (close_fault env); simpl;
      try reflexivity; apply update_where_pk; reflexivity.
Qed.

(** X12.  What a firing can touch, whatever its surroundings: it never
    changes sessions or messages, never adds or removes a task, and makes
    at most one call to the Slack client, for an active task and to that
    task's channel. *)
Theorem firing_frame (env : firing) (task_id : string) (w : world) :
  let w' := snd (execute_scheduled_task env task_id w) in
  conversation_sessions (store w') = conversation_sessions (store w)
  /\ messages (store w') = messages (store w)
  /\ map ScheduledTask.task_id (scheduled_tasks (store w'))
     = map ScheduledTask.task_id (scheduled_tasks (store w))
  /\ (posted w' = posted w
      \/ exists task,
           task_row task_id w = Some task
           /\ ScheduledTask.is_active task = true
           /\ posted w' = (posted w ++ [(ScheduledTask.channel_id task,
                                         reminder_text task)])%list).
Proof.
  run_firing.
  destruct (open_fault env); [repeat split; auto |].
  destruct (query_fault env); simpl.
  { destruct (close_fault env); repeat split; auto. }
  destruct (first _ _) as [task |] eqn:Hrow; simpl.
  2: { destruct (close_fault env); repeat split; auto. }
  destruct (ScheduledTask.is_active task) eqn:Hact; simpl.
  2: { destruct (close_fault env); repeat split; auto. }
  assert (Hkeys : forall key f,
    (forall r, ScheduledTask.task_id (f r) = ScheduledTask.task_id r) ->
    map ScheduledTask.task_id
      (update_where ScheduledTask.task_id key f (scheduled_tasks (store w)))
    = map ScheduledTask.task_id (scheduled_tasks (store w))).
  { intros key f Hf. apply update_where_pk. exact Hf. }
  destruct (slack_client env) as [client |]; simpl.
  - destruct (client _ _); simpl.
    + destruct (commit_fault env); simpl; destruct (close_fault env); simpl;
        repeat split; auto; try (apply Hkeys; reflexivity);
        right; exists task; auto.
    + destruct (close_fault env); simpl; repeat split; auto;
        right; exists task; auto.
    + destruct (close_fault env); simpl; repeat split; auto;
        right; exists task; auto.
  - destruct (commit_fault env); simpl; destruct (close_fault env); simpl;
      repeat split; auto; apply Hkeys; reflexivity.
Qed.

(** ** Start-up of the scheduler *)

Lemma add_job_In (j j' : job) (table : list job) :
  In j' (add_job j table) -> j' = j \/ In j' table.
Proof.
  unfold add_job. destruct (existsb _ _).
  - intros Hin. apply in_map_iff in Hin. destruct Hin as (x & Hx & Hin).
    destruct (String.eqb _ _); [left; congruence | right; congruence].
  - intros Hin. apply in_app_or in Hin. destruct Hin as [Hin | [<- | []]]; auto.
Qed.

Lemma add_job_fresh (j : job) (table : list job) :
  ~ In (job_id j) (map job_id table) -> add_job j table = (table ++ [j])%list.
Proof.
  intros Hnot. unfold add_job.
  destruct (existsb _ _) eqn:Hex; [| reflexivity].
  exfalso. apply Hnot. apply existsb_exists in Hex.
  destruct Hex as (x & Hx & Hk). apply String.eqb_eq in Hk.
  rewrite <- Hk. apply in_map. exact Hx.
Qed.

Section SchedulerFacts.

Variable crontab_ok : string -> bool.

(** The three ways one round of the loop can go. *)
Lemma schedule_task_cases (task : ScheduledTask.t) (m : tasks_module)
    (s : AsyncIOScheduler) :
  scheduler m = Some s ->
  (exists tr,
     trigger_of task = Some tr
     /\ schedule_task crontab_ok task m
        = (Ok tt,
           mkModule (module_world m)
             (Some (mkScheduler
                      (add_job (mkJob (ScheduledTask.task_id task) tr
                                      (ScheduledTask.task_id task)) (jobs s))
                      (running s)))))
  \/ (trigger_of task = None
      /\ exists w',
           schedule_task crontab_ok task m = (Ok tt, mkModule w' (Some s))
           /\ store w' = store (module_world m)
           /\ posted w' = posted (module_world m))
  \/ (exists expr,
        parsed_crontab task = Some expr
        /\ crontab_ok expr = false
        /\ schedule_task crontab_ok task m = (Raise ValueError, m)).
Proof.
  intros Hs. unfold schedule_task, trigger_of, parsed_crontab.
  destruct (ScheduledTask.is_recurring task
            && truthy (ScheduledTask.cron_expression task))%bool.
  - unfold from_crontab, bind, ret, raise.
    destruct (crontab_ok _) eqn:Hok.
    + left. eexists. split; [reflexivity |].
      unfold scheduler_add_job. rewrite Hs. reflexivity.
    + right. right. eexists. auto.
  - destruct (ScheduledTask.schedule_time task) as [run_date |]; simpl.
    + left. eexists. split; [reflexivity |].
      unfold scheduler_add_job. rewrite Hs. reflexivity.
    + right. left. split; [reflexivity |].
      unfold module_log. rewrite Hs. eexists. split; [reflexivity |]. auto.
Qed.

(** What [load_tasks] can do to the module, wherever it stops: the
    database and the posted messages are kept, the scheduler stays set,
    and its jobs keep a property every loaded task's job has. *)
Lemma load_tasks_keeps (P : job -> Prop) (tasks : list ScheduledTask.t) :
  (forall task j, In task tasks -> In j (jobs_of task) -> P j) ->
  forall (m : tasks_module) (s : AsyncIOScheduler),
    scheduler m = Some s ->
    Forall P (jobs s) ->
    exists s',
      scheduler (snd (load_tasks crontab_ok tasks m)) = Some s'
      /\ Forall P (jobs s')
      /\ running s' = running s
      /\ store (module_world (snd (load_tasks crontab_ok tasks m)))
         = store (module_world m)
      /\ posted (module_world (snd (load_tasks crontab_ok tasks m)))
         = posted (module_world m).
Proof.
  induction tasks as [| task rest IH]; intros HP m s Hs Hall.
  - simpl. exists s. auto.
  - assert (HPrest : forall t j, In t rest -> In j (jobs_of t) -> P j).
    { intros t j Ht. apply HP. right. exact Ht. }
    simpl. unfold bind.
    destruct (schedule_task_cases task m s Hs)
      as [(tr & Htr & Heq) | [(Htr & w' & Heq & Hst & Hp) | (e & _ & _ & Heq)]];
      rewrite Heq.
    + assert (Hall' : Forall P (add_job (mkJob (ScheduledTask.task_id task) tr
                                          (ScheduledTask.task_id task)) (jobs s))).
      { apply Forall_forall. intros j Hj.
        apply add_job_In in Hj. destruct Hj as [-> | Hj].
        - apply (HP task); [left; reflexivity |].
          unfold jobs_of. rewrite Htr. left. reflexivity.
        - rewrite Forall_forall in Hall. apply Hall. exact Hj. }
      destruct (IH HPrest
                  (mkModule (module_world m)
                     (Some (mkScheduler
                              (add_job (mkJob (ScheduledTask.task_id task) tr
                                              (ScheduledTask.task_id task))
                                       (jobs s)) (running s))))
                  _ eq_refl Hall')
        as (s' & H1 & H2 & H3 & H4 & H5).
      exists s'. auto.
    + destruct (IH HPrest (mkModule w' (Some s)) s eq_refl Hall)
        as (s' & H1 & H2 & H3 & H4 & H5).
      exists s'. simpl in *. repeat split; auto; congruence.
    + simpl. exists s. auto.
Qed.

(** With accepted cron expressions and task ids that are new to the job
    table, [load_tasks] runs through and appends the jobs of the tasks in
    order. *)
Lemma load_tasks_all (tasks : list ScheduledTask.t) :
  crontabs_ok crontab_ok tasks ->
  NoDup (map ScheduledTask.task_id tasks) ->
  forall (m : tasks_module) (s : AsyncIOScheduler),
    scheduler m = Some s ->
    (forall key, In key (map ScheduledTask.task_id tasks) ->
                 ~ In key (map job_id (jobs s))) ->
    fst (load_tasks crontab_ok tasks m) = Ok tt
    /\ scheduler (snd (load_tasks crontab_ok tasks m))
       = Some (mkScheduler (jobs s ++ flat_map jobs_of tasks) (running s))
    /\ store (module_world (snd (load_tasks crontab_ok tasks m)))
       = store (module_world m)
    /\ posted (module_world (snd (load_tasks crontab_ok tasks m)))
       = posted (module_world m).
Proof.
  induction tasks as [| task rest IH]; intros Hok Hnd m s Hs Hfresh.
  - simpl. rewrite app_nil_r. destruct s. auto.
  - inversion Hnd as [| ? ? Hnotin Hnd']; subst.
    assert (Hok' : crontabs_ok crontab_ok rest).
    { intros t e Ht. apply Hok. right. exact Ht. }
    assert (Hnew : ~ In (ScheduledTask.task_id task) (map job_id (jobs s))).
    { apply Hfresh. left. reflexivity. }
    assert (Hrest : forall key, In key (map ScheduledTask.task_id rest) ->
                      ~ In key (map job_id (jobs s))).
    { intros key Hkey. apply Hfresh. right. exact Hkey. }
    simpl load_tasks. unfold bind. cbn [flat_map]. unfold jobs_of at 1.
    destruct (schedule_task_cases task m s Hs)
      as [(tr & Htr & Heq) | [(Htr & w' & Heq & Hst & Hp) | (e & He & Hbad & _)]].
    + rewrite Heq, Htr. rewrite add_job_fresh by exact Hnew.
      assert (Hstep : forall key, In key (map ScheduledTask.task_id rest) ->
                ~ In key (map job_id
                            (jobs s ++ [mkJob (ScheduledTask.task_id task) tr
                                              (ScheduledTask.task_id task)]))).
      { intros key Hkey Hin. rewrite map_app in Hin.
        apply in_app_or in Hin. destruct Hin as [Hin | [Hin | []]].
        - apply (Hrest key); assumption.
        - simpl in Hin. subst key. contradiction. }
      destruct (IH Hok' Hnd'
                  (mkModule (module_world m)
                     (Some (mkScheduler
                              (jobs s ++ [mkJob (ScheduledTask.task_id task) tr
                                                (ScheduledTask.task_id task)])
                              (running s))))
                  _ eq_refl Hstep)
        as (H1 & H2 & H3 & H4).
      cbn [jobs running] in H2. rewrite <- app_assoc in H2. auto.
    + rewrite Heq, Htr.
      destruct (IH Hok' Hnd' (mkModule w' (Some s)) s eq_refl Hrest)
        as (H1 & H2 & H3 & H4).
      simpl in *. repeat split; auto; congruence.
    + rewrite (Hok task e (or_introl eq_refl) He) in Hbad. discriminate.
Qed.

End SchedulerFacts.

Lemma load_tasks_app (crontab_ok : string -> bool)
    (pre rest : list ScheduledTask.t) (m : tasks_module) :
  load_tasks crontab_ok (pre ++ rest) m
  = bind (load_tasks crontab_ok pre) (fun _ => load_tasks crontab_ok rest) m.
Proof.
  revert m. induction pre as [| task pre IH]; intros m; simpl.
  - reflexivity.
  - unfold bind in *.
    destruct (schedule_task crontab_ok task m) as [[[] | e | sg] m1].
    + apply IH.
    + reflexivity.
    + reflexivity.
Qed.

(** Nothing in the loading loop is awaited: it raises exceptions only. *)
Lemma schedule_task_no_signal (crontab_ok : string -> bool)
    (task : ScheduledTask.t) (m : tasks_module) (sg : signal) :
  fst (schedule_task crontab_ok task m) <> Unwind sg.
Proof.
  unfold schedule_task, from_crontab, scheduler_add_job, module_log, bind,
    ret, raise.
  destruct (ScheduledTask.is_recurring task
            && truthy (ScheduledTask.cron_expression task))%bool.
  - destruct (crontab_ok _); cbn; [destruct (scheduler m) |]; discriminate.
  - destruct (ScheduledTask.schedule_time task);
      [destruct (scheduler m) |]; discriminate.
Qed.

Lemma load_tasks_no_signal (crontab_ok : string -> bool)
    (tasks : list ScheduledTask.t) (sg : signal) :
  forall m : tasks_module, fst (load_tasks crontab_ok tasks m) <> Unwind sg.
Proof.
  induction tasks as [| task rest IH]; intros m; simpl; [discriminate |].
  unfold bind.
  pose proof (schedule_task_no_signal crontab_ok task m) as Hstep.
  destruct (schedule_task crontab_ok task m) as [[[] | e | sg'] m1].
  - apply IH.
  - discriminate.
  - exfalso. exact (Hstep sg' eq_refl).
Qed.

Lemma schedule_task_rejected (crontab_ok : string -> bool)
    (task : ScheduledTask.t) (expr : string) (m : tasks_module) :
  parsed_crontab task = Some expr ->
  crontab_ok expr = false ->
  schedule_task crontab_ok task m = (Raise ValueError, m).
Proof.
  unfold parsed_crontab, schedule_task. intros Hp Hrej.
  destruct (ScheduledTask.is_recurring task
            && truthy (ScheduledTask.cron_expression task))%bool;
    [| discriminate].
  injection Hp as ->. unfold from_crontab, bind, raise. rewrite Hrej.
  reflexivity.
Qed.

Lemma active_task_ids_unique (tasks : list ScheduledTask.t) :
  NoDup (map ScheduledTask.task_id tasks) ->
  NoDup (map ScheduledTask.task_id (filter ScheduledTask.is_active tasks)).
Proof.
  intros Hnd. induction tasks as [| task rest IH]; [constructor |].
  cbn [map] in Hnd. apply NoDup_cons_iff in Hnd. destruct Hnd as (Hnew & Hnd).
  cbn [filter]. destruct (ScheduledTask.is_active task); [| exact (IH Hnd)].
  cbn [map]. apply NoDup_cons; [| exact (IH Hnd)].
  intros Hin. apply Hnew. apply in_map_iff in Hin.
  destruct Hin as (other & Hid & Hin). apply filter_In in Hin.
  rewrite <- Hid. apply in_map. apply Hin.
Qed.

Lemma find_over_app {A} (p : A -> bool) (l l' : list A) :
  find p (l ++ l') = match find p l with
                     | Some x => Some x
                     | None => find p l'
                     end.
Proof.
  induction l as [| x l IH]; simpl; [reflexivity |].
  destruct (p x); [reflexivity | exact IH].
Qed.

Lemma lookup_job_absent (key : string) (tasks : list ScheduledTask.t) :
  ~ In key (map ScheduledTask.task_id tasks) ->
  lookup_job key (flat_map jobs_of tasks) = None.
Proof.
  unfold lookup_job, first.
  induction tasks as [| x tasks IH]; simpl; intros Hnot; [reflexivity |].
  rewrite find_over_app. unfold jobs_of at 1.
  destruct (trigger_of x); simpl.
  - assert (String.eqb (ScheduledTask.task_id x) key = false) as ->.
    { apply String.eqb_neq. intros Heq. apply Hnot. left. exact Heq. }
    apply IH. intros Hin. apply Hnot. right. exact Hin.
  - apply IH. intros Hin. apply Hnot. right. exact Hin.
Qed.

Lemma lookup_job_loaded (tasks : list ScheduledTask.t) (task : ScheduledTask.t) :
  NoDup (map ScheduledTask.task_id tasks) ->
  In task tasks ->
  lookup_job (ScheduledTask.task_id task)
    (flat_map jobs_of (filter ScheduledTask.is_active tasks))
  = if ScheduledTask.is_active task then hd_error (jobs_of task) else None.
Proof.
  induction tasks as [| x tasks IH]; simpl; intros Hnd Hin; [contradiction |].
  inversion Hnd as [| ? ? Hnotin Hnd']; subst.
  assert (Hrest : ~ In (ScheduledTask.task_id x)
                       (map ScheduledTask.task_id
                          (filter ScheduledTask.is_active tasks))).
  { intros H. apply Hnotin. apply in_map_iff in H.
    destruct H as (y & Hy & H). apply filter_In in H.
    rewrite <- Hy. apply in_map. apply H. }
  destruct Hin as [-> | Hin].
  - destruct (ScheduledTask.is_active task) eqn:Hact.
    + cbn [flat_map]. unfold lookup_job, first. rewrite find_over_app.
      unfold jobs_of at 1 3. destruct (trigger_of task); simpl.
      * rewrite String.eqb_refl. reflexivity.
      * apply lookup_job_absent. exact Hrest.
    + apply lookup_job_absent. exact Hrest.
  - assert (Hne : ScheduledTask.task_id x <> ScheduledTask.task_id task).
    { intros Heq. apply Hnotin. rewrite Heq. apply in_map. exact Hin. }
    destruct (ScheduledTask.is_active x).
    + cbn [flat_map]. unfold lookup_job, first. rewrite find_over_app.
      unfold jobs_of at 1. destruct (trigger_of x); simpl.
      * apply String.eqb_neq in Hne. rewrite Hne. apply IH; assumption.
      * apply IH; assumption.
    + apply IH; assumption.
Qed.

Ltac run_startup :=
  unfold initialize_scheduler, with_session, query_active_tasks,
    scheduler_start, module_log, try_except, fault, bind, ret, raise;
  cbn [scheduler module_world store posted log jobs running fst snd
       no_faults on_open on_query on_commit on_close].

Lemma initialize_scheduler_sound
    (crontab_ok : string -> bool) (faults : store_faults) (m : tasks_module) :
  let out := initialize_scheduler crontab_ok faults None m in
  exists s,
    fst out = Ok s
    /\ scheduler (snd out) = Some s
    /\ running s = true
    /\ store (module_world (snd out)) = store (module_world m)
    /\ posted (module_world (snd out)) = posted (module_world m)
    /\ Forall (job_of_active_task (store (module_world m))) (jobs s)
    /\ (on_open faults <> None -> jobs s = []).
Proof.
  run_startup.
  destruct (on_open faults) as [e |]; cbn.
  { eexists. repeat split; auto. }
  destruct (on_query faults) as [e |]; cbn.
  { destruct (on_close faults); cbn; eexists; repeat split; auto; congruence. }
  set (m0 := mkModule _ (Some (mkScheduler [] false))).
  set (active := filter ScheduledTask.is_active _).
  assert (HP : forall task j, In task active -> In j (jobs_of task) ->
                 job_of_active_task (store (module_world m)) j).
  { intros task j Ht Hj. subst active. apply filter_In in Ht.
    destruct Ht as (Ht & Hact). unfold jobs_of in Hj.
    destruct (trigger_of task) as [tr |] eqn:Htr; [| contradiction].
    destruct Hj as [<- | []]. exists task. simpl. auto. }
  destruct (load_tasks_keeps crontab_ok _ active HP m0 _ eq_refl (Forall_nil _))
    as (s' & Hs' & Hall & Hrun & Hst & Hp).
  pose proof (fun sg => load_tasks_no_signal crontab_ok active sg m0) as Hns.
  destruct (load_tasks crontab_ok active m0) as [[[] | e | sg] m1];
    [ | | exfalso; exact (Hns sg eq_refl)]; clear Hns; cbn in *;
    destruct (on_close faults); cbn; rewrite Hs'; cbn;
    eexists; repeat split; auto; congruence.
Qed.

(** X13.  What the start-up schedules, whatever the store and the cron
    parser do: when [scheduler.start()] succeeds the call returns the
    running scheduler, the database and the posted messages are as
    before, and every job stands for an active task of the database, with
    that task's id as job id and argument and the trigger the task's
    columns give; a store that cannot be opened leaves no job. *)
Theorem startup_schedules_active_tasks
    (crontab_ok : string -> bool) (faults : store_faults) (m : tasks_module) :
  let out := initialize_scheduler crontab_ok faults None m in
  exists s,
    fst out = Ok s
    /\ scheduler (snd out) = Some s
    /\ running s = true
    /\ store (module_world (snd out)) = store (module_world m)
    /\ posted (module_world (snd out)) = posted (module_world m)
    /\ Forall (job_of_active_task (store (module_world m))) (jobs s)
    /\ (on_open faults <> None -> jobs s = []).
Proof. apply initialize_scheduler_sound. Qed.

(** X14.  With a store that works, unique task ids and cron expressions
    the parser accepts, the start-up schedules exactly the active tasks
    that have a schedule: looked up by task id, an active task has the
    job its columns give (none if it has neither a truthy cron expression
    with [is_recurring] nor a schedule time), and an inactive task has no
    job; and the job table holds the jobs of the active tasks and no
    other job. *)
Theorem startup_schedules_every_active_task
    (crontab_ok : string -> bool) (m : tasks_module) :
  NoDup (task_keys (store (module_world m))) ->
  crontabs_ok crontab_ok
    (filter ScheduledTask.is_active (scheduled_tasks (store (module_world m)))) ->
  exists s,
    fst (initialize_scheduler crontab_ok no_faults None m) = Ok s
    /\ (forall task,
          In task (scheduled_tasks (store (module_world m))) ->
          lookup_job (ScheduledTask.task_id task) (jobs s)
          = if ScheduledTask.is_active task then hd_error (jobs_of task)
            else None)
    /\ (forall j,
          In j (jobs s) <->
          exists task,
            In task (scheduled_tasks (store (module_world m)))
            /\ ScheduledTask.is_active task = true
            /\ In j (jobs_of task)).
Proof.
  intros Hnd Hok. run_startup.
  set (m0 := mkModule _ (Some (mkScheduler [] false))).
  set (active := filter ScheduledTask.is_active _) in *.
  assert (Hnd' : NoDup (map ScheduledTask.task_id active)).
  { subst active. apply active_task_ids_unique. exact Hnd. }
  destruct (load_tasks_all crontab_ok active Hok Hnd' m0 _ eq_refl)
    as (Hfst & Hsch & _).
  { intros key _ []. }
  destruct (load_tasks crontab_ok active m0) as [r m1]; cbn in *.
  subst r. cbn. rewrite Hsch. cbn.
  eexists. split; [reflexivity |]. split.
  - intros task Hin. cbn. subst active. apply lookup_job_loaded; assumption.
  - intros j. cbn. subst active. rewrite in_flat_map. split.
    + intros (task & Hin & Hj). apply filter_In in Hin.
      exists task. tauto.
    + intros (task & Hin & Hact & Hj). exists task.
      split; [apply filter_In; split; assumption | exact Hj].
Qed.

Lemma startup_schedules_every_active_task_witness :
  exists s,
    fst (initialize_scheduler five_fields no_faults None (fresh_module two_tasks))
    = Ok s
    /\ (forall task,
          In task (scheduled_tasks (store two_tasks)) ->
          lookup_job (ScheduledTask.task_id task) (jobs s)
          = if ScheduledTask.is_active task then hd_error (jobs_of task)
            else None)
    /\ (forall j,
          In j (jobs s) <->
          exists task,
            In task (scheduled_tasks (store two_tasks))
            /\ ScheduledTask.is_active task = true
            /\ In j (jobs_of task)).
Proof.
  apply (startup_schedules_every_active_task five_fields (fresh_module two_tasks)).
  - simpl. repeat constructor; simpl; intuition discriminate.
  - intros task expr Hin Hp. simpl in Hin.
    destruct Hin as [<- | [<- | []]]; vm_compute in Hp.
    + discriminate Hp.
    + injection Hp as <-. reflexivity.
Defined.

(** X15.  A cron expression the parser rejects ends the loading: the
    tasks before it in table order are scheduled, the task itself and
    every task after it are not, the error is logged and the scheduler is
    started all the same. *)
Theorem bad_crontab_stops_loading
    (crontab_ok : string -> bool) (m : tasks_module)
    (pre post : list ScheduledTask.t) (bad : ScheduledTask.t) (expr : string) :
  filter ScheduledTask.is_active (scheduled_tasks (store (module_world m)))
  = (pre ++ bad :: post)%list ->
  NoDup (map ScheduledTask.task_id pre) ->
  crontabs_ok crontab_ok pre ->
  parsed_crontab bad = Some expr ->
  crontab_ok expr = false ->
  let out := initialize_scheduler crontab_ok no_faults None m in
  exists s,
    fst out = Ok s
    /\ running s = true
    /\ jobs s = flat_map jobs_of pre
    /\ In (LogError "Error loading tasks" ValueError)
          (log (module_world (snd out))).
Proof.
  intros Hact Hnd Hok Hbad Hrej. run_startup. rewrite Hact.
  set (m0 := mkModule _ (Some (mkScheduler [] false))).
  rewrite load_tasks_app. unfold bind.
  destruct (load_tasks_all crontab_ok pre Hok Hnd m0 _ eq_refl)
    as (Hfst & Hsch & _).
  { intros key _ []. }
  destruct (load_tasks crontab_ok pre m0) as [r m1]; cbn in *.
  subst r. cbn [load_tasks]. unfold bind.
  rewrite (schedule_task_rejected crontab_ok bad expr m1 Hbad Hrej).
  cbn. rewrite Hsch. cbn.
  eexists. split; [reflexivity |]. split; [reflexivity |].
  split; [reflexivity |].
  apply in_or_app. left. apply in_or_app. right. left. reflexivity.
Qed.

Lemma bad_crontab_stops_loading_witness :
  let out := initialize_scheduler five_fields no_faults None
               (fresh_module three_tasks) in
  exists s,
    fst out = Ok s
    /\ running s = true
    /\ jobs s = flat_map jobs_of [reminder_T1]
    /\ In (LogError "Error loading tasks" ValueError)
          (log (module_world (snd out))).
Proof.
  apply (bad_crontab_stops_loading five_fields (fresh_module three_tasks)
           [reminder_T1] [cron_T2] cron_bad "0 9 * *").
  - reflexivity.
  - simpl. repeat constructor. intros [].
  - intros task expr [<- | []] Hp. vm_compute in Hp. discriminate Hp.
  - reflexivity.
  - reflexivity.
Defined.

(** X16.  The start-up raises exactly when [scheduler.start()] does: the
    exception of a failing start reaches the caller, and with a start
    that works no fault of the store and no rejected cron expression
    does. *)
Theorem startup_raises_only_from_start
    (crontab_ok : string -> bool) (faults : store_faults)
    (start_fault : option exn) (m : tasks_module) :
  match start_fault with
  | Some e => fst (initialize_scheduler crontab_ok faults start_fault m) = Raise e
  | None => exists s,
      fst (initialize_scheduler crontab_ok faults start_fault m) = Ok s
  end.
Proof.
  destruct start_fault as [e |].
  - run_startup.
    destruct (on_open faults); cbn; [reflexivity |].
    destruct (on_query faults); cbn.
    { destruct (on_close faults); reflexivity. }
    match goal with
    | |- context [load_tasks ?c ?l ?m0] =>
        pose proof (fun sg => load_tasks_no_signal c l sg m0) as Hns;
        destruct (load_tasks c l m0) as [[[] | e' | sg] m1];
        [ | | exfalso; exact (Hns sg eq_refl)]; clear Hns; cbn;
        destruct (on_close faults); reflexivity
    end.
  - destruct (initialize_scheduler_sound crontab_ok faults m) as (s & Hs & _).
    exists s. exact Hs.
Qed.

Lemma module_execute_world (env : firing) (task_id : string) (m : tasks_module) :
  module_world (snd (module_execute env task_id m))
  = snd (execute_scheduled_task env task_id (module_world m))
  /\ scheduler (snd (module_execute env task_id m)) = scheduler m
  /\ fst (module_execute env task_id m)
     = fst (execute_scheduled_task env task_id (module_world m)).
Proof.
  unfold module_execute.
  destruct (execute_scheduled_task env task_id (module_world m)) as [r w'].
  simpl. auto.
Qed.

(** X17.  A one-time task that has been fired, with the delivery made
    and recorded, is not scheduled again by a later start-up: with unique
    task ids the job table of the restarted scheduler has no job for
    it. *)
Theorem fired_one_time_task_not_rescheduled
    (crontab_ok : string -> bool) (faults : store_faults) (env : firing)
    (task_id : string) (m : tasks_module) (task : ScheduledTask.t) :
  NoDup (task_keys (store (module_world m))) ->
  store_sound env ->
  task_row task_id (module_world m) = Some task ->
  ScheduledTask.is_active task = true ->
  ScheduledTask.is_recurring task = false ->
  delivery_returns env task ->
  exists s,
    fst (initialize_scheduler crontab_ok faults None
           (snd (module_execute env task_id m))) = Ok s
    /\ lookup_job task_id (jobs s) = None.
Proof.
  intros Hnd Hs Hrow Hact Hrec Hret.
  destruct (module_execute_world env task_id m) as (Hw & _).
  destruct (initialize_scheduler_sound crontab_ok faults
              (snd (module_execute env task_id m)))
    as (s & Hfst & _ & _ & _ & _ & Hall & _).
  exists s. split; [exact Hfst |].
  rewrite Hw in Hall.
  destruct (execute_delivered env task_id _ task Hs Hrow Hact Hret)
    as (Hrow' & _).
  pose proof (firing_frame_keys env task_id (module_world m)) as Hkeys.
  destruct (lookup_job task_id (jobs s)) as [j |] eqn:Hj; [| reflexivity].
  exfalso. apply first_some in Hj. destruct Hj as (Hin & Hid).
  apply String.eqb_eq in Hid.
  rewrite Forall_forall in Hall.
  destruct (Hall j Hin) as (task' & Hin' & Hact' & Hjid & _).
  apply first_some in Hrow'. destruct Hrow' as (Hinf & Hkf).
  apply String.eqb_eq in Hkf.
  assert (task' = fired (utcnow env) task).
  { apply (unique_row ScheduledTask.task_id
             (scheduled_tasks
                (store (snd (execute_scheduled_task env task_id
                               (module_world m)))))).
    - rewrite Hkeys. exact Hnd.
    - exact Hin'.
    - exact Hinf.
    - congruence. }
  subst task'.
  destruct (fired_fields (utcnow env) task) as (_ & Ha & _).
  rewrite Ha, Hrec in Hact'. discriminate.
Qed.

Lemma fired_one_time_task_not_rescheduled_witness :
  exists s,
    fst (initialize_scheduler five_fields no_faults None
           (snd (module_execute (client_up 10) "T1" (fresh_module two_tasks))))
    = Ok s
    /\ lookup_job "T1" (jobs s) = None.
Proof.
  apply (fired_one_time_task_not_rescheduled five_fields no_faults
           (client_up 10) "T1" (fresh_module two_tasks) reminder_T1).
  - simpl. repeat constructor; simpl; intuition discriminate.
  - repeat split.
  - reflexivity.
  - reflexivity.
  - reflexivity.
  - simpl. exists true. reflexivity.
Defined.

(** ** The reminder tool *)

Ltac run_reminder :=
  unfold set_reminder, with_session, insert_task, scheduler_add_job,
    module_log, try_except, fault, bind, ret, raise;
  cbn [scheduler module_world store posted log jobs running fst snd
       no_faults on_open on_query on_commit on_close].

Lemma existsb_task_key_false (key : string) (l : list ScheduledTask.t) :
  ~ In key (map ScheduledTask.task_id l) ->
  existsb (fun k => String.eqb (ScheduledTask.task_id k) key) l = false.
Proof.
  intros Hnot. destruct (existsb _ l) eqn:Hex; [| reflexivity].
  exfalso. apply Hnot. apply existsb_exists in Hex.
  destruct Hex as (k & Hk & He). apply String.eqb_eq in He.
  rewrite <- He. apply in_map. exact Hk.
Qed.

Lemma existsb_task_key_true (key : string) (l : list ScheduledTask.t) :
  In key (map ScheduledTask.task_id l) ->
  existsb (fun k => String.eqb (ScheduledTask.task_id k) key) l = true.
Proof.
  intros Hin. apply in_map_iff in Hin. destruct Hin as (k & Hk & Hin).
  apply existsb_exists. exists k. split; [exact Hin |].
  apply String.eqb_eq. exact Hk.
Qed.

Lemma task_row_appended (key : string) (l : list ScheduledTask.t)
    (row : ScheduledTask.t) :
  ~ In key (map ScheduledTask.task_id l) ->
  ScheduledTask.task_id row = key ->
  first (fun k => String.eqb (ScheduledTask.task_id k) key) (l ++ [row])
  = Some row.
Proof.
  intros Hnot Hkey. unfold first. rewrite find_over_app.
  destruct (find _ l) as [k |] eqn:Hf.
  - exfalso. apply Hnot. apply find_some in Hf. destruct Hf as (Hin & He).
    apply String.eqb_eq in He. rewrite <- He. apply in_map. exact Hin.
  - cbn [find]. rewrite Hkey, String.eqb_refl. reflexivity.
Qed.

Lemma lookup_job_added (j : job) (table : list job) :
  lookup_job (job_id j) (add_job j table) = Some j.
Proof.
  unfold lookup_job, first, add_job.
  destruct (existsb _ table) eqn:Hex.
  - induction table as [| x l IH]; cbn [existsb map find] in *;
      [discriminate |].
    destruct (String.eqb (job_id x) (job_id j)) eqn:E.
    + rewrite String.eqb_refl. reflexivity.
    + rewrite E. apply IH. exact Hex.
  - rewrite find_over_app.
    assert (find (fun j' => String.eqb (job_id j') (job_id j)) table = None) as ->.
    { induction table as [| x l IH]; cbn [existsb find] in *; [reflexivity |].
      apply orb_false_elim in Hex. destruct Hex as (E & Hex).
      rewrite E. apply IH. exact Hex. }
    cbn [find]. rewrite String.eqb_refl. reflexivity.
Qed.

Section ReminderFacts.

Variable timestamp_text strftime_minutes datetime_str : Z -> string.
Variable exn_str : exn -> string.

(** The module after a reminder was stored and scheduled. *)
Lemma set_reminder_stored (now now_id created : Z)
    (user_id channel_id message when : string) (m : tasks_module) :
  contains "tomorrow" (lower when) = true ->
  ~ In (reminder_id timestamp_text user_id now_id)
       (task_keys (store (module_world m))) ->
  let task_id := reminder_id timestamp_text user_id now_id in
  let row := reminder_row task_id user_id channel_id message now created in
  set_reminder timestamp_text strftime_minutes datetime_str exn_str no_faults
    now now_id created user_id channel_id message when m
  = (Ok ("✅ Reminder set for " ++ strftime_minutes (now + one_day)),
     mkModule
       (mkWorld
          (with_tasks (scheduled_tasks (store (module_world m)) ++ [row])
                      (store (module_world m)))
          (posted (module_world m))
          (log (module_world m)
           ++ [LogInfo ("Set reminder for " ++ datetime_str (now + one_day)
                        ++ ": " ++ message)]))
       (option_map
          (fun s => mkScheduler
                      (add_job (mkJob task_id (DateTrigger (now + one_day)) task_id)
                               (jobs s))
                      (running s))
          (scheduler m))).
Proof.
  intros Hwhen Hfresh task_id row. subst task_id row.
  unfold reminder_id, reminder_row, task_keys in *.
  run_reminder. rewrite Hwhen. cbn.
  rewrite existsb_task_key_false by exact Hfresh. cbn.
  destruct (scheduler m); reflexivity.
Qed.

End ReminderFacts.

(** X18.  A request whose [when] mentions tomorrow, in any letter case,
    with a working store and a task id not yet in use: the reminder is
    stored as an active one-time task due one day after the clock
    reading, it is the row of its id, a job with a date trigger at that
    time is added when a scheduler is set, and the reply confirms the
    time. *)
Theorem set_reminder_tomorrow
    (timestamp_text strftime_minutes datetime_str : Z -> string)
    (exn_str : exn -> string) (now now_id created : Z)
    (user_id channel_id message when : string) (m : tasks_module) :
  contains "tomorrow" (lower when) = true ->
  ~ In (reminder_id timestamp_text user_id now_id)
       (task_keys (store (module_world m))) ->
  let task_id := reminder_id timestamp_text user_id now_id in
  let row := reminder_row task_id user_id channel_id message now created in
  let out := set_reminder timestamp_text strftime_minutes datetime_str exn_str
               no_faults now now_id created user_id channel_id message when m in
  fst out = Ok ("✅ Reminder set for " ++ strftime_minutes (now + one_day))
  /\ scheduled_tasks (store (module_world (snd out)))
     = (scheduled_tasks (store (module_world m)) ++ [row])%list
  /\ task_row task_id (module_world (snd out)) = Some row
  /\ posted (module_world (snd out)) = posted (module_world m)
  /\ (forall s, scheduler m = Some s ->
        exists s',
          scheduler (snd out) = Some s'
          /\ lookup_job task_id (jobs s')
             = Some (mkJob task_id (DateTrigger (now + one_day)) task_id))
  /\ (scheduler m = None -> scheduler (snd out) = None).
Proof.
  intros Hwhen Hfresh task_id row out. subst out.
  rewrite (set_reminder_stored timestamp_text strftime_minutes datetime_str
             exn_str now now_id created user_id channel_id message when m
             Hwhen Hfresh).
  cbn [fst snd module_world store scheduled_tasks with_tasks posted scheduler].
  split; [reflexivity |]. split; [reflexivity |]. split.
  { unfold task_row. cbn. apply task_row_appended; [exact Hfresh | reflexivity]. }
  split; [reflexivity |]. split.
  - intros s Hs. rewrite Hs. cbn [option_map]. eexists. split; [reflexivity |].
    cbn [jobs].
    apply (lookup_job_added
             (mkJob task_id (DateTrigger (now + one_day)) task_id)).
  - intros Hs. rewrite Hs. reflexivity.
Qed.

Lemma set_reminder_tomorrow_witness :
  let task_id := "reminder_U1_1700000000.500042" in
  let row := reminder_row task_id "U1" "C1" "Review the PR"
               1700000000500000 1700000000600000 in
  let out := set_reminder posix_text posix_text posix_text exn_class no_faults
               1700000000500000 1700000000500042 1700000000600000
               "U1" "C1" "Review the PR" "Tomorrow at 10am"
               (mkModule two_tasks (Some (mkScheduler [] true))) in
  fst out = Ok "✅ Reminder set for 1700086400.5"
  /\ scheduled_tasks (store (module_world (snd out)))
     = [reminder_T1; cron_T2; row]
  /\ task_row task_id (module_world (snd out)) = Some row
  /\ posted (module_world (snd out)) = []
  /\ (forall s, Some (mkScheduler [] true) = Some s ->
        exists s',
          scheduler (snd out) = Some s'
          /\ lookup_job task_id (jobs s')
             = Some (mkJob task_id (DateTrigger 1700086400500000) task_id))
  /\ (Some (mkScheduler [] true) = None -> scheduler (snd out) = None).
Proof.
  apply (set_reminder_tomorrow posix_text posix_text posix_text exn_class
           1700000000500000 1700000000500042 1700000000600000
           "U1" "C1" "Review the PR" "Tomorrow at 10am"
           (mkModule two_tasks (Some (mkScheduler [] true)))).
  - reflexivity.
  - vm_compute. intros [H | [H | []]]; discriminate H.
Defined.

(** X19.  A request whose [when] does not contain the word tomorrow is
    never stored or scheduled, whatever the store would do: the call
    returns the could-not-parse reply and the module is left exactly as
    it was.  That covers the relative form "in 2 hours" the reply itself
    suggests. *)
Theorem set_reminder_unparsed
    (timestamp_text strftime_minutes datetime_str : Z -> string)
    (exn_str : exn -> string) (faults : store_faults) (now now_id created : Z)
    (user_id channel_id message when : string) (m : tasks_module) :
  contains "tomorrow" (lower when) = false ->
  set_reminder timestamp_text strftime_minutes datetime_str exn_str faults
    now now_id created user_id channel_id message when m
  = (Ok could_not_parse, m).
Proof.
  intros Hwhen. run_reminder. rewrite Hwhen.
  destruct (contains "in" (lower when)); reflexivity.
Qed.

Lemma set_reminder_unparsed_witness :
  set_reminder posix_text posix_text posix_text exn_class no_faults
    1700000000500000 1700000000500042 1700000000600000
    "U1" "C1" "Review the PR" "in 2 hours" (fresh_module two_tasks)
  = (Ok could_not_parse, fresh_module two_tasks).
Proof.
  apply (set_reminder_unparsed posix_text posix_text posix_text exn_class
           no_faults 1700000000500000 1700000000500042 1700000000600000
           "U1" "C1" "Review the PR" "in 2 hours" (fresh_module two_tasks)).
  reflexivity.
Defined.

(** X20.  [set_reminder] never raises, whatever the store does: it
    always returns a reply.  It posts nothing, leaves sessions and
    messages alone, keeps every stored task, adds at most one, and
    changes the job table only when it has stored the task. *)
Theorem set_reminder_never_raises
    (timestamp_text strftime_minutes datetime_str : Z -> string)
    (exn_str : exn -> string) (faults : store_faults) (now now_id created : Z)
    (user_id channel_id message when : string) (m : tasks_module) :
  let out := set_reminder timestamp_text strftime_minutes datetime_str exn_str
               faults now now_id created user_id channel_id message when m in
  (exists reply, fst out = Ok reply)
  /\ posted (module_world (snd out)) = posted (module_world m)
  /\ conversation_sessions (store (module_world (snd out)))
     = conversation_sessions (store (module_world m))
  /\ messages (store (module_world (snd out)))
     = messages (store (module_world m))
  /\ exists added,
       scheduled_tasks (store (module_world (snd out)))
       = (scheduled_tasks (store (module_world m)) ++ added)%list
       /\ (List.length added <= 1)%nat
       /\ (added = [] -> scheduler (snd out) = scheduler m).
Proof.
  run_reminder.
  destruct (contains "tomorrow" (lower when)).
  2: { destruct (contains "in" (lower when)); cbn;
       (split; [eexists; reflexivity |]); repeat split;
       exists []; rewrite app_nil_r; auto. }
  destruct (on_open faults); cbn.
  { split; [eexists; reflexivity |]. repeat split.
    exists []. rewrite app_nil_r. auto. }
  destruct (on_commit faults); cbn.
  { destruct (on_close faults); cbn;
      (split; [eexists; reflexivity |]); repeat split;
      exists []; rewrite app_nil_r; auto. }
  destruct (existsb _ _); cbn.
  { destruct (on_close faults); cbn;
      (split; [eexists; reflexivity |]); repeat split;
      exists []; rewrite app_nil_r; auto. }
  destruct (on_close faults); cbn.
  - split; [eexists; reflexivity |]. repeat split.
    eexists [_]. split; [reflexivity |]. split; [simpl; lia | discriminate].
  - destruct (scheduler m); cbn;
      (split; [eexists; reflexivity |]); repeat split;
      eexists [_]; (split; [reflexivity |]); (split; [simpl; lia | discriminate]).
Qed.

(** X21.  When the generated task id is already in use (the same user
    and the same clock reading as an earlier reminder), the insert is
    rejected: the reply reports the error, and neither the database nor
    the job table changes. *)
Theorem set_reminder_id_collision
    (timestamp_text strftime_minutes datetime_str : Z -> string)
    (exn_str : exn -> string) (now now_id created : Z)
    (user_id channel_id message when : string) (m : tasks_module) :
  contains "tomorrow" (lower when) = true ->
  In (reminder_id timestamp_text user_id now_id)
     (task_keys (store (module_world m))) ->
  let out := set_reminder timestamp_text strftime_minutes datetime_str exn_str
               no_faults now now_id created user_id channel_id message when m in
  fst out = Ok ("Error setting reminder: " ++ exn_str IntegrityError)
  /\ store (module_world (snd out)) = store (module_world m)
  /\ scheduler (snd out) = scheduler m.
Proof.
  intros Hwhen Hused. unfold reminder_id, task_keys in Hused.
  run_reminder. rewrite Hwhen. cbn.
  rewrite existsb_task_key_true by exact Hused. cbn.
  repeat split.
Qed.

Lemma set_reminder_id_collision_witness :
  let m1 := snd (set_reminder posix_text posix_text posix_text exn_class
                   no_faults 1700000000500000 1700000000500042
                   1700000000600000 "U1" "C1" "Review the PR" "tomorrow"
                   (fresh_module two_tasks)) in
  let out := set_reminder posix_text posix_text posix_text exn_class no_faults
               1700000000500000 1700000000500042 1700000000600000
               "U1" "C2" "Call Ana" "tomorrow morning" m1 in
  fst out = Ok "Error setting reminder: IntegrityError"
  /\ store (module_world (snd out)) = store (module_world m1)
  /\ scheduler (snd out) = scheduler m1.
Proof.
  apply (set_reminder_id_collision posix_text posix_text posix_text exn_class
           1700000000500000 1700000000500042 1700000000600000
           "U1" "C2" "Call Ana" "tomorrow morning").
  - reflexivity.
  - vm_compute. right. right. left. reflexivity.
Defined.

(** X22.  From the tool to the delivery: a reminder that [set_reminder]
    stored, fired by the dispatcher with a working store and a client
    that answers, is posted to the channel it was set for as the reminder
    text of its message, and is then stored inactive with [last_run] set
    to the firing time. *)
Theorem reminder_is_delivered
    (timestamp_text strftime_minutes datetime_str : Z -> string)
    (exn_str : exn -> string) (now now_id created : Z)
    (user_id channel_id message when : string) (m : tasks_module)
    (env : firing) (client : string -> string -> post_outcome) :
  contains "tomorrow" (lower when) = true ->
  ~ In (reminder_id timestamp_text user_id now_id)
       (task_keys (store (module_world m))) ->
  store_sound env ->
  slack_client env = Some client ->
  (exists ok, client channel_id ("⏰ Reminder: " ++ message) = Responded ok) ->
  let task_id := reminder_id timestamp_text user_id now_id in
  let m1 := snd (set_reminder timestamp_text strftime_minutes datetime_str
                   exn_str no_faults now now_id created user_id channel_id
                   message when m) in
  let m2 := snd (module_execute env task_id m1) in
  posted (module_world m2)
  = (posted (module_world m)
     ++ [(channel_id, ("⏰ Reminder: " ++ message)%string)])%list
  /\ exists task,
       task_row task_id (module_world m2) = Some task
       /\ ScheduledTask.is_active task = false
       /\ ScheduledTask.last_run task = Some (utcnow env).
Proof.
  intros Hwhen Hfresh Hs Hcl Hok task_id m1 m2.
  pose (row := reminder_row task_id user_id channel_id message now created).
  assert (Hrow : task_row task_id (module_world m1) = Some row
                 /\ posted (module_world m1) = posted (module_world m)).
  { subst m1.
    rewrite (set_reminder_stored timestamp_text strftime_minutes datetime_str
               exn_str now now_id created user_id channel_id message when m
               Hwhen Hfresh).
    split; [| reflexivity].
    unfold task_row. cbn. apply task_row_appended; [exact Hfresh | reflexivity]. }
  destruct Hrow as (Hrow & Hposted).
  assert (Hret : delivery_returns env row).
  { unfold delivery_returns. rewrite Hcl. exact Hok. }
  destruct (execute_delivered env task_id (module_world m1) row Hs Hrow
              eq_refl Hret) as (Hrow2 & _ & _ & Hp2).
  destruct (module_execute_world env task_id m1) as (Hw & _).
  subst m2. rewrite Hw. split.
  - rewrite Hp2, Hcl, Hposted. reflexivity.
  - exists (fired (utcnow env) row). split; [exact Hrow2 |].
    split; reflexivity.
Qed.

Lemma reminder_is_delivered_witness :
  let task_id := "reminder_U1_1700000000.500042" in
  let m1 := snd (set_reminder posix_text posix_text posix_text exn_class
                   no_faults 1700000000500000 1700000000500042
                   1700000000600000 "U1" "C1" "Review the PR" "tomorrow"
                   (fresh_module two_tasks)) in
  let m2 := snd (module_execute (client_up 1700086400500000) task_id m1) in
  posted (module_world m2) = [("C1", "⏰ Reminder: Review the PR")]
  /\ exists task,
       task_row task_id (module_world m2) = Some task
       /\ ScheduledTask.is_active task = false
       /\ ScheduledTask.last_run task = Some 1700086400500000.
Proof.
  apply (reminder_is_delivered posix_text posix_text posix_text exn_class
           1700000000500000 1700000000500042 1700000000600000
           "U1" "C1" "Review the PR" "tomorrow" (fresh_module two_tasks)
           (client_up 1700086400500000) (fun _ _ => Responded true)).
  - reflexivity.
  - vm_compute. intros [H | [H | []]]; discriminate H.
  - repeat split.
  - reflexivity.
  - exists true. reflexivity.
Defined.

(** ** The message handlers *)

Lemma Ok_inj {A} (x y : A) : Ok x = Ok y -> x = y.
Proof. intros H. injection H as H. exact H. Qed.

Lemma say_agent_calls (env : turn) (text : string) (thread_ts : option string)
    (a : handler_state) :
  agent_calls (snd (say env text thread_ts a)) = agent_calls a.
Proof. unfold say. destruct (say_fault env text); reflexivity. Qed.

Lemma next_message_id_snoc (table : list Message.t) (m : Message.t) :
  Message.id m = next_message_id table ->
  next_message_id (table ++ [m]) = 1 + next_message_id table.
Proof.
  assert (Hpos : 0 <= fold_right (fun m acc => Z.max (Message.id m) acc) 0 table).
  { induction table as [| x l IH]; cbn [fold_right]; lia. }
  assert (Hconst : forall b,
            (forall x, In x table -> Message.id x <= b) ->
            fold_right (fun m acc => Z.max (Message.id m) acc) b table = b).
  { clear Hpos. intros b.
    induction table as [| x l IH]; cbn [fold_right]; intros Hle;
      [reflexivity |].
    rewrite IH.
    - specialize (Hle x (or_introl eq_refl)). lia.
    - intros y Hy. apply Hle. right. exact Hy. }
  intros Hid.
  unfold next_message_id in *. rewrite fold_right_app. cbn [fold_right].
  rewrite Hconst.
  - lia.
  - intros x Hx. pose proof (next_message_id_above table x Hx) as Hlt.
    unfold next_message_id in Hlt. lia.
Qed.

Ltac run_turn :=
  unfold process_user_message, handle_special_command, process_message,
    in_store, app_logger, say, react, try_except, bind, ret, raise;
  cbn [app_store said reactions agent_calls app_log fst snd].

Section HandlerFacts.

Variable timestamp_text : Z -> string.
Variable strip : string -> string.

(** The run of [process_user_message]: the session is resolved, the
    user's message stored, and the agent is called with the first fifty
    entries of the session's log.  An answer of the agent is said and
    stored; an exception raised in the agent is answered by
    [process_message] with its apology, which is said and stored like an
    answer; a signal leaves the handler. *)
Lemma process_user_message_run (env : turn) (user_id channel_id : string)
    (thread_ts : option string) (text : string) (a : handler_state)
    (sid : string) (db1 : Store) :
  get_or_create_session timestamp_text (resolve_now env) user_id
    (Some channel_id) thread_ts (app_store a) = (Ok sid, db1) ->
  let db2 := snd (add_message (user_stamp env) sid "user" text None db1) in
  let history := map entry_of (history_rows sid 50 db2) in
  let reacted :=
    (reactions a ++ [("reactions_add", channel_id, or_latest thread_ts)])%list in
  let called := (agent_calls a ++ [(text, sid, history)])%list in
  let logged :=
    (app_log a ++ [LogInfo ("Processing message for session " ++ sid)])%list in
  let answer := fun (response : string) (logged : list log_record) =>
    let reply :=
      if (String.eqb response "" || String.eqb (strip response) "")%bool
      then empty_reply else response in
    let reacted' :=
      (reacted ++ [("reactions_remove", channel_id, or_latest thread_ts)])%list in
    match say_fault env reply with
    | None =>
        (Ok tt,
         mkApp (snd (add_message (assistant_stamp env) sid "assistant"
                       reply None db2))
               (said a ++ [(reply, thread_ts)]) reacted' called
               (logged ++ [LogInfo ("Response sent for session " ++ sid)]))
    | Some e =>
        say env sorry_reply thread_ts
          (mkApp db2 (said a ++ [(reply, thread_ts)]) reacted' called
                 (logged ++ [LogError "Error processing message" e]))
    end in
  process_user_message timestamp_text strip env user_id channel_id thread_ts
    text a
  = match agent_reply env text sid user_id channel_id history with
    | Ok response => answer response logged
    | Raise e =>
        answer agent_error_reply
               (logged ++ [LogError "Error processing message" e])%list
    | Unwind sg => (Unwind sg, mkApp db2 (said a) reacted called logged)
    end.
Proof.
  intros Hres db2 history reacted called logged answer.
  subst db2 history reacted called logged answer.
  run_turn. rewrite Hres.
  cbn [app_store said reactions agent_calls app_log fst snd add_message].
  destruct (reaction_fault env);
    cbn [app_store said reactions agent_calls app_log fst snd];
    rewrite get_session_history_default;
    cbn [app_store said reactions agent_calls app_log fst snd];
    (destruct (agent_reply env text sid user_id channel_id _)
       as [response | err | sg]; [| | reflexivity]);
    cbn [app_store said reactions agent_calls app_log fst snd];
    repeat match goal with
           | |- context [say_fault env ?r] => destruct (say_fault env r)
           end;
    reflexivity.
Qed.

End HandlerFacts.

(** X23.  A handled message whose session resolves, whose agent answers
    and whose reply can be said stores exactly two messages in that
    session, the user's text and then the reply, after the messages
    already stored; the reply said and stored is the agent's answer, or
    the fixed fallback text when the answer is empty or blank. *)
Theorem handled_message_stores_both
    (timestamp_text : Z -> string) (strip : string -> string) (env : turn)
    (user_id channel_id : string) (thread_ts : option string) (text : string)
    (a : handler_state) (sid : string) (db1 : Store) (response : string) :
  get_or_create_session timestamp_text (resolve_now env) user_id
    (Some channel_id) thread_ts (app_store a) = (Ok sid, db1) ->
  agent_reply env text sid user_id channel_id
    (map entry_of
       (history_rows sid 50
          (snd (add_message (user_stamp env) sid "user" text None db1))))
  = Ok response ->
  let reply :=
    if (String.eqb response "" || String.eqb (strip response) "")%bool
    then empty_reply else response in
  say_fault env reply = None ->
  let out := process_user_message timestamp_text strip env user_id channel_id
               thread_ts text a in
  fst out = Ok tt
  /\ messages (app_store (snd out))
     = (messages (app_store a)
        ++ [Message.mk (next_message_id (messages (app_store a))) sid "user"
                       text (user_stamp env) None;
            Message.mk (1 + next_message_id (messages (app_store a))) sid
                       "assistant" reply (assistant_stamp env) None])%list
  /\ said (snd out) = (said a ++ [(reply, thread_ts)])%list
  /\ reply <> "".
Proof.
  intros Hres Hagent reply Hsay out. subst out.
  rewrite (process_user_message_run timestamp_text strip env user_id channel_id
             thread_ts text a sid db1 Hres).
  cbv beta zeta. rewrite Hagent. fold reply. rewrite Hsay.
  destruct (resolve_returned timestamp_text _ _ _ _ _ _ _ Hres)
    as (_ & _ & Hm & _).
  cbn [fst snd app_store said add_message with_messages messages].
  rewrite Hm. split; [reflexivity |]. split.
  { rewrite <- app_assoc. cbn [List.app]. repeat f_equal.
    apply next_message_id_snoc. reflexivity. }
  split; [reflexivity |].
  subst reply. destruct (String.eqb response "") eqn:E; cbn [orb].
  - discriminate.
  - destruct (String.eqb (strip response) ""); [discriminate |].
    apply String.eqb_neq. exact E.
Qed.

Lemma handled_message_stores_both_witness :
  let out := process_user_message posix_text no_strip (calm_turn "Sure.")
               "U1" "C1" None "can you help?" (blank_app busy_store) in
  fst out = Ok tt
  /\ messages (app_store (snd out))
     = (messages busy_store
        ++ [Message.mk 3 "session_U1_1700000000.5" "user" "can you help?"
                       1700000100000100 None;
            Message.mk 4 "session_U1_1700000000.5" "assistant" "Sure."
                       1700000105000000 None])%list
  /\ said (snd out) = [("Sure.", None)]
  /\ "Sure." <> "".
Proof.
  apply (handled_message_stores_both posix_text no_strip (calm_turn "Sure.")
           "U1" "C1" None "can you help?" (blank_app busy_store)
           "session_U1_1700000000.5"
           (snd (get_or_create_session posix_text 1700000100000000 "U1"
                   (Some "C1") None busy_store))
           "Sure.").
  - reflexivity.
  - reflexivity.
  - reflexivity.
Defined.

(** X24.  The history handed to the agent is read after the user's
    message is stored, with the default limit of fifty.  Once the
    session's log holds fifty messages, none stamped later than the new
    one, the agent is therefore given the same fifty oldest entries it
    would have been given before the message was stored: the window no
    longer moves. *)
Theorem agent_history_stops_moving
    (timestamp_text : Z -> string) (strip : string -> string) (env : turn)
    (user_id channel_id : string) (thread_ts : option string) (text : string)
    (a : handler_state) (sid : string) (db1 : Store) :
  get_or_create_session timestamp_text (resolve_now env) user_id
    (Some channel_id) thread_ts (app_store a) = (Ok sid, db1) ->
  50 <= Z.of_nat (List.length (session_log sid (app_store a))) ->
  (forall m, In m (messages (app_store a)) -> Message.session_id m = sid ->
             Message.timestamp m <= user_stamp env) ->
  let out := process_user_message timestamp_text strip env user_id channel_id
               thread_ts text a in
  exists entries,
    fst (get_session_history sid 50 (app_store a)) = Ok entries
    /\ agent_calls (snd out) = (agent_calls a ++ [(text, sid, entries)])%list
    /\ List.length entries = 50%nat.
Proof.
  intros Hres Hfull Hle out. subst out.
  destruct (resolve_returned timestamp_text _ _ _ _ _ _ _ Hres)
    as (_ & _ & Hm & _).
  assert (Hlog : session_log sid db1 = session_log sid (app_store a)).
  { unfold session_log. rewrite Hm. reflexivity. }
  assert (Hread : map entry_of
                    (history_rows sid 50
                       (snd (add_message (user_stamp env) sid "user" text
                               None db1)))
                  = map entry_of (history_rows sid 50 (app_store a))).
  { assert (H : fst (get_session_history sid 50
                       (snd (add_message (user_stamp env) sid "user" text
                               None db1)))
                = fst (get_session_history sid 50 db1)).
    { apply read_after_add_saturated.
      - rewrite Hm. exact Hle.
      - rewrite Hlog. lia. }
    change (Ok (map entry_of
                  (history_rows sid 50
                     (snd (add_message (user_stamp env) sid "user" text
                             None db1))))
            = Ok (map entry_of (history_rows sid 50 db1))) in H.
    apply Ok_inj in H. rewrite H, !history_rows_of_log, Hlog. reflexivity. }
  rewrite (process_user_message_run timestamp_text strip env user_id channel_id
             thread_ts text a sid db1 Hres).
  cbv beta zeta. rewrite Hread.
  exists (map entry_of (history_rows sid 50 (app_store a))).
  split; [reflexivity |]. split.
  - destruct (agent_reply env text sid user_id channel_id _)
      as [response | e | sg]; [| | reflexivity];
      match goal with
      | |- context [say_fault env ?r] => destruct (say_fault env r)
      end;
      rewrite ?say_agent_calls; reflexivity.
  - rewrite length_map, history_rows_of_log. unfold sql_limit.
    cbn [Z.ltb Z.compare]. rewrite length_firstn. lia.
Qed.

Lemma agent_history_stops_moving_witness :
  let out := process_user_message posix_text no_strip (calm_turn "Sure.")
               "U1" "C1" None "one more" (blank_app fifty_messages) in
  exists entries,
    fst (get_session_history "session_U1_1700000000.5" 50
           (app_store (blank_app fifty_messages))) = Ok entries
    /\ agent_calls (snd out)
       = (agent_calls (blank_app fifty_messages)
          ++ [("one more", "session_U1_1700000000.5", entries)])%list
    /\ List.length entries = 50%nat.
Proof.
  apply (agent_history_stops_moving posix_text no_strip (calm_turn "Sure.")
           "U1" "C1" None "one more" (blank_app fifty_messages)
           "session_U1_1700000000.5"
           (snd (get_or_create_session posix_text 1700000100000000 "U1"
                   (Some "C1") None fifty_messages))).
  - reflexivity.
  - vm_compute. discriminate.
  - intros m Hm _. cbn [blank_app app_store fifty_messages messages] in Hm.
    apply in_map_iff in Hm. destruct Hm as (i & <- & Hi).
    apply in_seq in Hi. cbn [Message.timestamp calm_turn user_stamp]. lia.
Defined.



(** X26.  The reset command: the session the identity resolves to is
    cleared, so with a unique primary key no row of that id is active
    afterwards; no message is deleted, the confirmation is said and the
    command reports that it handled the text. *)
Theorem reset_command_clears_session
    (timestamp_text : Z -> string) (lower_strip : string -> string)
    (help_text : string) (env : turn) (text user_id channel_id : string)
    (thread_ts : option string) (a : handler_state) (sid : string)
    (db1 : Store) :
  among (lower_strip text) ["/help"; "help"; "?"] = false ->
  among (lower_strip text) ["/reset"; "reset"; "clear"] = true ->
  wf_sessions (app_store a) ->
  get_or_create_session timestamp_text (resolve_now env) user_id
    (Some channel_id) thread_ts (app_store a) = (Ok sid, db1) ->
  say_fault env reset_reply = None ->
  let out := handle_special_command timestamp_text lower_strip help_text env
               text user_id channel_id thread_ts a in
  fst out = Ok true
  /\ app_store (snd out) = snd (clear_session (clear_stamp env) sid db1)
  /\ (forall row, In row (conversation_sessions (app_store (snd out))) ->
                  ConversationSession.session_id row = sid ->
                  ConversationSession.is_active row = false)
  /\ messages (app_store (snd out)) = messages (app_store a)
  /\ said (snd out) = (said a ++ [(reset_reply, thread_ts)])%list.
Proof.
  intros Hhelp Hreset Hwf Hres Hsay out. subst out.
  destruct (resolve_returned timestamp_text _ _ _ _ _ _ _ Hres)
    as (_ & Hwf1 & Hm & _).
  specialize (Hwf1 Hwf).
  run_turn. rewrite Hhelp, Hreset, Hres.
  cbn [app_store said reactions agent_calls app_log fst snd].
  pose proof (clear_session_ok (clear_stamp env) sid db1) as Hok.
  destruct (clear_session (clear_stamp env) sid db1) as [r db2] eqn:Hclear.
  cbn [fst] in Hok. subst r.
  cbn [app_store said reactions agent_calls app_log fst snd].
  rewrite Hsay.
  cbn [app_store said reactions agent_calls app_log fst snd].
  split; [reflexivity |]. split; [reflexivity |].
  assert (Hdb2 : db2 = snd (clear_session (clear_stamp env) sid db1)).
  { rewrite Hclear. reflexivity. }
  split.
  { intros row Hin Hkey. rewrite Hdb2 in Hin.
    apply (clear_session_inactive (clear_stamp env) sid db1 row Hwf1 Hin Hkey). }
  split; [| reflexivity].
  rewrite Hdb2, <- Hm. unfold clear_session.
  destruct (first _ _) as [s |];
    [destruct (ConversationSession.is_active s) |]; reflexivity.
Qed.

Lemma reset_command_clears_session_witness :
  let out := handle_special_command posix_text lower "help" (calm_turn "")
               "RESET" "U1" "C1" None (blank_app busy_store) in
  fst out = Ok true
  /\ app_store (snd out)
     = snd (clear_session 1700000100000050 "session_U1_1700000000.5"
              (snd (get_or_create_session posix_text 1700000100000000 "U1"
                      (Some "C1") None busy_store)))
  /\ (forall row, In row (conversation_sessions (app_store (snd out))) ->
                  ConversationSession.session_id row = "session_U1_1700000000.5" ->
                  ConversationSession.is_active row = false)
  /\ messages (app_store (snd out)) = messages busy_store
  /\ said (snd out) = [(reset_reply, None)].
Proof.
  apply (reset_command_clears_session posix_text lower "help" (calm_turn "")
           "RESET" "U1" "C1" None (blank_app busy_store)
           "session_U1_1700000000.5"
           (snd (get_or_create_session posix_text 1700000100000000 "U1"
                   (Some "C1") None busy_store))).
  - reflexivity.
  - reflexivity.
  - unfold wf_sessions. simpl. repeat constructor. intros [].
  - reflexivity.
  - reflexivity.
Defined.

(** X27.  A text that is neither a help word nor a reset word never makes
    the command handler touch the database or report the text as
    handled; unless it is a summarize word inside a thread, the handler
    does nothing at all and returns False. *)
Theorem other_text_is_not_a_command
    (timestamp_text : Z -> string) (lower_strip : string -> string)
    (help_text : string) (env : turn) (text user_id channel_id : string)
    (thread_ts : option string) (a : handler_state) :
  among (lower_strip text) ["/help"; "help"; "?"] = false ->
  among (lower_strip text) ["/reset"; "reset"; "clear"] = false ->
  let out := handle_special_command timestamp_text lower_strip help_text env
               text user_id channel_id thread_ts a in
  app_store (snd out) = app_store a
  /\ fst out <> Ok true
  /\ ((among (lower_strip text) ["summarize"; "tldr"; "summary"]
       && truthy thread_ts)%bool = false ->
      out = (Ok false, a)).
Proof.
  intros Hhelp Hreset out. subst out. run_turn. rewrite Hhelp, Hreset.
  destruct (among (lower_strip text) ["summarize"; "tldr"; "summary"]
            && truthy thread_ts)%bool.
  - destruct (say_fault env summarizing_reply);
      cbn [app_store fst snd]; repeat split; discriminate.
  - cbn [app_store fst snd]. repeat split. discriminate.
Qed.

Lemma other_text_is_not_a_command_witness :
  let out := handle_special_command posix_text lower "help" (calm_turn "")
               "summarize" "U1" "C1" None (blank_app busy_store) in
  app_store (snd out) = busy_store
  /\ fst out <> Ok true
  /\ ((among (lower "summarize") ["summarize"; "tldr"; "summary"]
       && truthy None)%bool = false ->
      out = (Ok false, blank_app busy_store)).
Proof.
  apply (other_text_is_not_a_command posix_text lower "help" (calm_turn "")
           "summarize" "U1" "C1" None (blank_app busy_store)).
  - reflexivity.
  - reflexivity.
Defined.
